(** * pyobis: URL construction, response validation and the taxa facade

    A shallow embedding of [pyobis/obisutils.py] and [pyobis/taxa/taxa.py].

    Python objects are values of [pyval]; a [str] is held as the byte
    sequence of its UTF-8 encoding (a Rocq [string]); a [dict] is an
    association list in insertion order whose keys are strings.  Floats
    are outside the model, and the Unicode database that [repr] consults
    is a parameter.  Functions that can raise return an [outcome];
    code that talks to the network or the disk, or that reads and writes
    the attributes of the facade instance, lives in the monad [M] over a
    [world] that survives an exception. *)

From Stdlib Require Import String Ascii List ZArith NArith Bool Lia.
From Stdlib Require Import DecimalString.
Import ListNotations.
Local Open Scope list_scope.
Local Open Scope string_scope.
Set Warnings "-register-all".

(** ** Python values and exceptions *)

Inductive pyval : Type :=
| PNone
| PBool (b : bool)
| PInt (z : Z)
| PStr (s : string)
| PList (l : list pyval)
| PDict (d : list (string * pyval)).

(** A [dict] with [str] keys, in insertion order. *)
Definition dict : Type := list (string * pyval).

Inductive exn : Type :=
| TypeError
| KeyError (key : string)
| IndexError
| AttributeError (attr : string)
| HTTPError (status : Z)
| NoResultException (msg : string)
| JSONDecodeError
| RequestException
| OSError.

Inductive outcome (A : Type) : Type :=
| Ok (a : A)
| Raise (e : exn).
Arguments Ok {A} a.
Arguments Raise {A} e.

Definition obind {A B} (o : outcome A) (k : A -> outcome B) : outcome B :=
  match o with
  | Ok a => k a
  | Raise e => Raise e
  end.

Declare Scope outcome_scope.
Delimit Scope outcome_scope with outcome.
Notation "'try' x <- c ; k" := (obind c (fun x => k))
  (at level 61, x name, c at next level, right associativity) : outcome_scope.

(** ** The Unicode character database

    [repr] of a str asks it whether a character from 128 up is
    printable ([str.isprintable]).  The table is the interpreter's, not
    this repository's: the development is parametric in it. *)

Class Unicode : Type := { isprintable : N -> bool }.

(** A table for the examples: it is the database on the Latin-1 range,
    where the C1 controls, the no-break space and the soft hyphen are
    not printable, and takes every code point above it as printable. *)
Definition latin1_unicode : Unicode :=
  {| isprintable := fun cp => negb ((cp <? 161)%N || (cp =? 173)%N) |}.

Section Model.

Context {unicode_db : Unicode}.

(** ** Built-ins: [__class__.__name__], truth value, [str], iteration *)

Definition class_name (x : pyval) : string :=
  match x with
  | PNone => "NoneType"
  | PBool _ => "bool"
  | PInt _ => "int"
  | PStr _ => "str"
  | PList _ => "list"
  | PDict _ => "dict"
  end.

Definition truthy (x : pyval) : bool :=
  match x with
  | PNone => false
  | PBool b => b
  | PInt z => negb (Z.eqb z 0)
  | PStr s => negb (String.eqb s "")
  | PList l => match l with [] => false | _ => true end
  | PDict d => match d with [] => false | _ => true end
  end.

(** [v is None], and for the values of the model also [v == None]. *)
Definition is_none (x : pyval) : bool :=
  match x with
  | PNone => true
  | _ => false
  end.

Definition str_of_int (z : Z) : string :=
  NilZero.string_of_int (Z.to_int z).

Definition str_contains (c : ascii) (s : string) : bool :=
  existsb (Ascii.eqb c) (list_ascii_of_string s).

(** The characters of a [str]: a byte from 128 to 191 continues the
    UTF-8 sequence of the character before it. *)
Definition is_continuation (c : ascii) : bool :=
  let n := N_of_ascii c in ((128 <=? n) && (n <? 192))%N.

Definition flush (cur : option string) : list string :=
  match cur with
  | Some w => [w]
  | None => []
  end.

Fixpoint chars_from (cur : option string) (s : string) : list string :=
  match s with
  | EmptyString => flush cur
  | String c s' =>
      if is_continuation c
      then chars_from
             (Some (match cur with Some w => w | None => "" end ++ String c ""))
             s'
      else (flush cur ++ chars_from (Some (String c "")) s')%list
  end.

Definition str_chars (s : string) : list string := chars_from None s.

(** The code point of one character, from its UTF-8 sequence: the bits
    of the lead byte, then six bits of every byte that follows. *)
Definition lead_bits (c : ascii) : N :=
  let n := N_of_ascii c in
  if (n <? 128)%N then n
  else if (n <? 224)%N then (n mod 32)%N
  else if (n <? 240)%N then (n mod 16)%N
  else (n mod 8)%N.

Fixpoint code_point_from (acc : N) (s : string) : N :=
  match s with
  | EmptyString => acc
  | String c s' => code_point_from (acc * 64 + N_of_ascii c mod 64)%N s'
  end.

Definition code_point (ch : string) : N :=
  match ch with
  | EmptyString => 0%N
  | String c rest => code_point_from (lead_bits c) rest
  end.

Definition hex_lower (n : N) : ascii :=
  if (n <? 10)%N then ascii_of_N (48 + n) else ascii_of_N (87 + n).

(** The last [width] hexadecimal digits of [n], in lower case. *)
Fixpoint hex_digits (width : nat) (n : N) : string :=
  match width with
  | O => EmptyString
  | S k => hex_digits k (n / 16) ++ String (hex_lower (n mod 16)) ""
  end.

(** The escape of a character that [repr] does not print. *)
Definition repr_escape (cp : N) : string :=
  if (cp <? 256)%N then "\x" ++ hex_digits 2 cp
  else if (cp <? 65536)%N then "\u" ++ hex_digits 4 cp
  else "\U" ++ hex_digits 8 cp.

(** One character of [repr] of a [str]; [q] is the chosen quote.  A
    character from 128 up is kept when the Unicode database calls it
    printable and escaped otherwise. *)
Definition repr_char (q : ascii) (ch : string) : string :=
  let cp := code_point ch in
  if String.eqb ch (String q "") || String.eqb ch "\" then "\" ++ ch
  else if (cp =? 9)%N then "\t"
  else if (cp =? 10)%N then "\n"
  else if (cp =? 13)%N then "\r"
  else if (cp <? 32)%N || (cp =? 127)%N then repr_escape cp
  else if (cp <? 127)%N then ch
  else if isprintable cp then ch
  else repr_escape cp.

Definition repr_str (s : string) : string :=
  let q := if str_contains "'"%char s && negb (str_contains "034"%char s)
           then "034"%char else "'"%char in
  String q (String.concat "" (map (repr_char q) (str_chars s))
            ++ String q "").

Fixpoint py_repr (x : pyval) : string :=
  match x with
  | PNone => "None"
  | PBool true => "True"
  | PBool false => "False"
  | PInt z => str_of_int z
  | PStr s => repr_str s
  | PList l => "[" ++ String.concat ", " (map py_repr l) ++ "]"
  | PDict d =>
      "{" ++ String.concat ", "
               (map (fun kv => repr_str (fst kv) ++ ": " ++ py_repr (snd kv)) d)
          ++ "}"
  end.

(** [str(x)] *)
Definition py_str (x : pyval) : string :=
  match x with
  | PStr s => s
  | _ => py_repr x
  end.

(** [iter(x)]: a str yields its characters, a list its items, a dict its
    keys; None, bool and int are not iterable. *)
Definition py_iter (x : pyval) : outcome (list pyval) :=
  match x with
  | PStr s => Ok (map PStr (str_chars s))
  | PList l => Ok l
  | PDict d => Ok (map (fun kv => PStr (fst kv)) d)
  | PNone | PBool _ | PInt _ => Raise TypeError
  end.

Fixpoint expect_strs (l : list pyval) : outcome (list string) :=
  match l with
  | [] => Ok []
  | PStr s :: l' =>
      (try r <- expect_strs l' ; Ok (s :: r))%outcome
  | _ :: _ => Raise TypeError
  end.

(** [sep.join(x)]: every item has to be a str. *)
Definition str_join (sep : string) (x : pyval) : outcome string :=
  (try items <- py_iter x ;
   try strs <- expect_strs items ;
   Ok (String.concat sep strs))%outcome.

(** ** obisutils: the parameter normalizer *)

Definition handle_arrstr (x : pyval) : outcome pyval :=
  if String.eqb (class_name x) "NoneType" then Ok PNone
  else if String.eqb (class_name x) "str" then Ok x
  else (try s <- str_join "," x ; Ok (PStr s))%outcome.

Definition handle_arrint (x : pyval) : outcome pyval :=
  if String.eqb (class_name x) "NoneType" then Ok PNone
  else if String.eqb (class_name x) "int" then Ok x
  else (try items <- py_iter x ;
        try s <- str_join "," (PList (map (fun i => PStr (py_str i)) items)) ;
        Ok (PStr s))%outcome.

(** ** Dictionaries *)

Fixpoint dict_get (d : dict) (k : string) : option pyval :=
  match d with
  | [] => None
  | (k', v) :: d' => if String.eqb k' k then Some v else dict_get d' k
  end.

(** [d[k] = v]: an existing key keeps its place, a new one goes last. *)
Fixpoint dict_set (d : dict) (k : string) (v : pyval) : dict :=
  match d with
  | [] => [(k, v)]
  | (k', v') :: d' =>
      if String.eqb k' k then (k', v) :: d' else (k', v') :: dict_set d' k v
  end.

(** [d[k]] *)
Definition dict_getitem (d : dict) (k : string) : outcome pyval :=
  match dict_get d k with
  | Some v => Ok v
  | None => Raise (KeyError k)
  end.

Definition dict_keys (d : dict) : list string := map fst d.

(** A dict holds each key once. *)
Definition dict_wf (d : dict) : Prop := NoDup (dict_keys d).

(** [{k: v for k, v in args.items() if v is not None}] *)
Definition not_none_items (args : dict) : dict :=
  fold_left
    (fun acc kv => if is_none (snd kv) then acc else dict_set acc (fst kv) (snd kv))
    args [].

(** ** urllib.parse: [quote], [quote_plus], [urlencode] *)

Definition in_range (lo hi : N) (c : ascii) : bool :=
  let n := N_of_ascii c in ((lo <=? n) && (n <=? hi))%N.

(** Letters, digits and [_.-~] are never quoted. *)
Definition always_safe (c : ascii) : bool :=
  in_range 65 90 c || in_range 97 122 c || in_range 48 57 c
  || str_contains c "_.-~".

Definition hex_upper (n : N) : ascii :=
  if (n <? 10)%N then ascii_of_N (48 + n) else ascii_of_N (55 + n).

(** ['%{:02X}'.format(byte)] *)
Definition percent_hex (c : ascii) : string :=
  let n := N_of_ascii c in
  String "%"%char (String (hex_upper (n / 16)) (String (hex_upper (n mod 16)) "")).

Definition quoter (safe : string) (c : ascii) : string :=
  if always_safe c || str_contains c safe then String c "" else percent_hex c.

Definition quote (s safe : string) : string :=
  String.concat "" (map (quoter safe) (list_ascii_of_string s)).

Fixpoint str_replace_char (a b : ascii) (s : string) : string :=
  match s with
  | EmptyString => EmptyString
  | String c s' =>
      String (if Ascii.eqb c a then b else c) (str_replace_char a b s')
  end.

Definition quote_plus (s : string) : string :=
  if negb (str_contains " "%char s) then quote s ""
  else str_replace_char " "%char "+"%char (quote s " ").

(** [urlencode(query)] for a dict, [doseq] off: [str] of every value. *)
Definition urlencode (query : dict) : string :=
  String.concat "&"
    (map (fun kv => quote_plus (fst kv) ++ "=" ++ quote_plus (py_str (snd kv)))
         query).

(** ** obisutils: the URL builder *)

Definition obis_baseurl : string := "https://api.obis.org/v3/".

Definition build_api_url (url : string) (args : dict) : string :=
  url ++ "?" ++ urlencode (not_none_items args).

(** ** urllib.parse: the decoder [parse_qsl], which reads a query string
    back into its list of parameters ([keep_blank_values] on) *)

Fixpoint split_on (sep : ascii) (s : string) : list string :=
  match s with
  | EmptyString => [EmptyString]
  | String c s' =>
      if Ascii.eqb c sep then EmptyString :: split_on sep s'
      else match split_on sep s' with
           | [] => [String c EmptyString]
           | w :: ws => String c w :: ws
           end
  end.

(** [s.split(sep, 1)], with an empty second part when [sep] is missing *)
Fixpoint split_first (sep : ascii) (s : string) : string * string :=
  match s with
  | EmptyString => (EmptyString, EmptyString)
  | String c s' =>
      if Ascii.eqb c sep then (EmptyString, s')
      else let (a, b) := split_first sep s' in (String c a, b)
  end.

Definition unhex (c : ascii) : option N :=
  let n := N_of_ascii c in
  if in_range 48 57 c then Some (n - 48)%N
  else if in_range 65 70 c then Some (n - 55)%N
  else if in_range 97 102 c then Some (n - 87)%N
  else None.

Fixpoint unquote (s : string) : string :=
  match s with
  | EmptyString => EmptyString
  | String c s' =>
      if Ascii.eqb c "%"%char then
        match s' with
        | String h (String l rest) =>
            match unhex h, unhex l with
            | Some a, Some b => String (ascii_of_N (16 * a + b)) (unquote rest)
            | _, _ => String c (unquote s')
            end
        | _ => String c (unquote s')
        end
      else String c (unquote s')
  end.

Definition unquote_plus (s : string) : string :=
  unquote (str_replace_char "+"%char " "%char s).

Definition parse_qsl (qs : string) : list (string * string) :=
  map (fun nv => let (n, v) := split_first "="%char nv in
                 (unquote_plus n, unquote_plus v))
      (filter (fun nv => negb (String.eqb nv "")) (split_on "&"%char qs)).

(** ** The world: the HTTP transport, the disk, the facade instance *)

(** One call of [requests.get]: the URL and the keyword arguments. *)
Record request : Type := mkRequest {
  req_url : string;
  req_options : dict
}.

(** A [requests.Response]: the status, the headers, what [json()] gives
    for the body, and what [iter_content(chunk_size)] yields: the chunks
    that arrive, and the exception that ends the stream when it breaks
    before its end. *)
Record response : Type := mkResponse {
  status_code : Z;
  headers : list (string * string);
  json : outcome pyval;
  iter_content : nat -> list string * option exn
}.

(** What the code does to the world, in the order it does it. *)
Inductive event : Type :=
| EvGet (r : request)
| EvRaiseForStatus (status : Z)
| EvStopifnot (x ctype : string)
| EvJson
| EvOpen (path : string)
| EvWrite (path chunk : string)
| EvClose (path : string).

(** The attributes of the one [OBISQueryResult] instance ([None] while an
    attribute has not been assigned) and the events so far, latest first. *)
Record world : Type := mkWorld {
  self_url : option string;
  self_args : option dict;
  trace : list event
}.

Definition M (A : Type) : Type := world -> outcome A * world.

Definition ret {A} (a : A) : M A := fun w => (Ok a, w).

Definition raise {A} (e : exn) : M A := fun w => (Raise e, w).

Definition bind {A B} (m : M A) (k : A -> M B) : M B :=
  fun w => match m w with
           | (Ok a, w') => k a w'
           | (Raise e, w') => (Raise e, w')
           end.

Definition lift {A} (o : outcome A) : M A := fun w => (o, w).

Definition tick (ev : event) : M unit :=
  fun w => (Ok tt, mkWorld (self_url w) (self_args w) (ev :: trace w)).

Declare Scope M_scope.
Delimit Scope M_scope with M.
Notation "x <- c ;; k" := (bind c (fun x => k))
  (at level 61, c at next level, right associativity) : M_scope.
Notation "c ;; k" := (bind c (fun _ => k))
  (at level 61, right associativity) : M_scope.
Local Open Scope M_scope.

(** [self.url], [self.args] and their assignment. *)
Definition get_url : M string :=
  fun w => match self_url w with
           | Some u => (Ok u, w)
           | None => (Raise (AttributeError "url"), w)
           end.

Definition get_args : M dict :=
  fun w => match self_args w with
           | Some a => (Ok a, w)
           | None => (Raise (AttributeError "args"), w)
           end.

Definition set_url (u : string) : M unit :=
  fun w => (Ok tt, mkWorld (Some u) (self_args w) (trace w)).

Definition set_args (a : dict) : M unit :=
  fun w => (Ok tt, mkWorld (self_url w) (Some a) (trace w)).

(** [OBISQueryResult.__init__] assigns nothing. *)
Definition init : world := mkWorld None None [].

(** The requests issued so far, earliest first. *)
Definition requests_of (t : list event) : list request :=
  rev (flat_map (fun ev => match ev with EvGet r => [r] | _ => [] end) t).

(** A call that passes [**kwargs] next to the parameters [names] fails
    when [kwargs] holds one of these names. *)
Definition clashes (names : list string) (kwargs : dict) : bool :=
  existsb (fun k => existsb (String.eqb k) names) (dict_keys kwargs).

Definition call_kw {A} (names : list string) (kwargs : dict) (body : M A) : M A :=
  if clashes names kwargs then raise TypeError else body.

Definition ascii_lower (c : ascii) : ascii :=
  if in_range 65 90 c then ascii_of_N (N_of_ascii c + 32) else c.

Definition str_lower (s : string) : string :=
  string_of_list_ascii (map ascii_lower (list_ascii_of_string s)).

(** [out.headers[name]]: the keys compare without regard to case. *)
Fixpoint headers_getitem (h : list (string * string)) (name : string)
  : outcome string :=
  match h with
  | [] => Raise (KeyError name)
  | (k, v) :: h' =>
      if String.eqb (str_lower k) (str_lower name) then Ok v
      else headers_getitem h' name
  end.

(** A client error (4xx) or a server error (5xx). *)
Definition http_failure (status : Z) : bool :=
  ((400 <=? status) && (status <? 600))%Z.

(** [out.raise_for_status()] *)
Definition raise_for_status (out : response) : M unit :=
  tick (EvRaiseForStatus (status_code out)) ;;
  if http_failure (status_code out)
  then raise (HTTPError (status_code out))
  else ret tt.

(** [out.json()] *)
Definition response_json (out : response) : M pyval :=
  tick EvJson ;; lift (json out).

(** [str + x] *)
Definition str_add (s : string) (x : pyval) : outcome string :=
  match x with
  | PStr t => Ok (s ++ t)
  | _ => Raise TypeError
  end.

(** [x[i]] with an integer and [x[k]] with a str *)
Definition getitem_int (x : pyval) (i : nat) : outcome pyval :=
  match x with
  | PList l => match nth_error l i with
               | Some v => Ok v
               | None => Raise IndexError
               end
  | PStr s => match nth_error (str_chars s) i with
              | Some c => Ok (PStr c)
              | None => Raise IndexError
              end
  | PDict _ => Raise (KeyError (str_of_int (Z.of_nat i)))
  | PNone | PBool _ | PInt _ => Raise TypeError
  end.

Definition getitem_str (x : pyval) (k : string) : outcome pyval :=
  match x with
  | PDict d => dict_getitem d k
  | _ => Raise TypeError
  end.

Section Transport.

(** The network: what [requests.get] gives for a request, after the
    events so far. *)
Variable network : list event -> request -> outcome response.

(** The disk: the exception that an operation on a file raises after the
    events so far, or [None] when the disk takes it. *)
Variable disk : list event -> event -> option exn.

(** [requests.get(url, <explicit keywords>, **kwargs)] *)
Definition requests_get (url : string) (explicit kwargs : dict) : M response :=
  call_kw ("url" :: dict_keys explicit) kwargs
    (fun w =>
       let r := mkRequest url (explicit ++ kwargs)%list in
       (network (trace w) r,
        mkWorld (self_url w) (self_args w) (EvGet r :: trace w))).

(** ** obisutils: the fetchers *)

Definition stopifnot (x ctype : string) : M unit :=
  tick (EvStopifnot x ctype) ;;
  if negb (String.eqb x ctype)
  then raise (NoResultException ("content-type did not equal " ++ ctype))
  else ret tt.

Definition user_agent : string :=
  "Mozilla/5.0 (X11; CrOS x86_64 12871.102.0) AppleWebKit/537.36 (KHTML, like Gecko) Chrome/81.0.4044.141 Safari/537.36".

Definition obis_headers : dict :=
  [("User-Agent", PStr user_agent); ("Connection", PStr "close")].

Definition obis_GET (url : string) (args : dict) (ctype : string) (kwargs : dict)
  : M pyval :=
  out <- requests_get url
           [("params", PDict args); ("headers", PDict obis_headers)] kwargs ;;
  raise_for_status out ;;
  x <- lift (headers_getitem (headers out) "content-type") ;;
  stopifnot x ctype ;;
  response_json out.

(** One operation on a file: it is logged when the disk takes it. *)
Definition disk_op (ev : event) : M unit :=
  fun w => match disk (trace w) ev with
           | None => (Ok tt, mkWorld (self_url w) (self_args w) (ev :: trace w))
           | Some e => (Raise e, w)
           end.

(** [with open(path, "wb") as f: body]: the file is closed on the way
    out, also when the body raises; an exception of the close takes the
    place of the body's. *)
Definition with_open {A} (path : string) (body : M A) : M A :=
  disk_op (EvOpen path) ;;
  (fun w => match body w with
            | (r, w') =>
                match disk_op (EvClose path) w' with
                | (Ok _, w'') => (r, w'')
                | (Raise e, w'') => (Raise e, w'')
                end
            end).

(** [for chunk in <chunks>: if chunk: f.write(chunk)] *)
Fixpoint write_chunks (path : string) (chunks : list string) : M unit :=
  match chunks with
  | [] => ret tt
  | chunk :: rest =>
      (if negb (String.eqb chunk "")
       then disk_op (EvWrite path chunk) else ret tt) ;;
      write_chunks path rest
  end.

(** The loop over [out.iter_content(chunk_size=1024)]: the chunks that
    arrive are written, then the stream ends or breaks. *)
Definition write_stream (path : string) (out : response) : M unit :=
  write_chunks path (fst (iter_content out 1024)) ;;
  match snd (iter_content out 1024) with
  | Some e => raise e
  | None => ret tt
  end.

Definition obis_write_disk (url path : string) (ctype : pyval) (kwargs : dict)
  : M string :=
  out <- requests_get url [("stream", PBool true)] kwargs ;;
  raise_for_status out ;;
  with_open path (write_stream path out) ;;
  ret path.

(** ** taxa: the facade [OBISQueryResult] *)

Definition json_ctype : string := "application/json; charset=utf-8".

Definition search (scientificname : pyval) (kwargs : dict) : M pyval :=
  scientificname <- lift (handle_arrstr scientificname) ;;
  u <- lift (str_add (obis_baseurl ++ "taxon/") scientificname) ;;
  set_url u ;;
  set_args [("scientificname", scientificname)] ;;
  url <- get_url ;;
  args <- get_args ;;
  call_kw ["url"; "args"; "ctype"] kwargs (obis_GET url args json_ctype kwargs).

Definition taxon (id : pyval) (kwargs : dict) : M pyval :=
  set_url (obis_baseurl ++ "taxon/" ++ py_str id) ;;
  set_args [] ;;
  url <- get_url ;;
  args <- get_args ;;
  call_kw ["url"; "args"; "ctype"] kwargs (obis_GET url args json_ctype kwargs).

Definition annotations (scientificname : pyval) (kwargs : dict) : M pyval :=
  set_url (obis_baseurl ++ "taxon/annotations") ;;
  scientificname <- lift (handle_arrstr scientificname) ;;
  set_args [("scientificname", scientificname)] ;;
  url <- get_url ;;
  args <- get_args ;;
  call_kw ["url"; "args"; "ctype"] kwargs (obis_GET url args json_ctype kwargs).

(** [{k: v for k, v in self.args.items() if not v == None}] *)
Definition not_eq_none_items (args : dict) : dict :=
  fold_left
    (fun acc kv => if negb (is_none (snd kv))
                   then dict_set acc (fst kv) (snd kv) else acc)
    args [].

Definition get_search_url : M string :=
  url <- get_url ;;
  args <- get_args ;;
  ret (url ++ "?" ++ urlencode (not_eq_none_items args)).

Definition lookup_taxon (scientificname : pyval) : M pyval :=
  res <- requests_get
           ("https://api.obis.org/v3/taxon/complete/" ++ py_str scientificname)
           [] [] ;;
  response_json res.

Definition get_mapper_url : M string :=
  args <- get_args ;;
  taxonid <- lift (dict_getitem args "taxonid") ;;
  cond <- (if negb (truthy taxonid)
           then name <- lift (dict_getitem args "scientificname") ;;
                ret (truthy name)
           else ret false) ;;
  (if cond : bool
   then args <- get_args ;;
        name <- lift (dict_getitem args "scientificname") ;;
        found <- lookup_taxon name ;;
        first <- lift (getitem_int found 0) ;;
        id <- lift (getitem_str first "id") ;;
        args <- get_args ;;
        set_args (dict_set args "taxonid" id)
   else ret tt) ;;
  args <- get_args ;;
  ret ("https://mapper.obis.org/" ++ "?" ++ urlencode (not_eq_none_items args)).

End Transport.


(** ** Vocabulary of the properties *)

(** What [quote_plus] makes of one byte. *)
Definition plus_byte (c : ascii) : string :=
  if Ascii.eqb c " "%char then "+" else quoter "" c.

Ltac each_byte c :=
  destruct c as [[|] [|] [|] [|] [|] [|] [|] [|]].

(** One [name=value] parameter of the query string. *)
Definition encode_item (kv : string * pyval) : string :=
  quote_plus (fst kv) ++ "=" ++ quote_plus (py_str (snd kv)).

(** The parameter a reader of the query string gets back. *)
Definition decoded_item (kv : string * pyval) : string * string :=
  (fst kv, py_str (snd kv)).

(** The items whose value is not [None], in the order of the dict. *)
Definition present_items (args : dict) : dict :=
  filter (fun kv => negb (is_none (snd kv))) args.

Definition obis_GET_request (url : string) (args kwargs : dict) : request :=
  mkRequest url
    ([("params", PDict args); ("headers", PDict obis_headers)] ++ kwargs)%list.

Definition lookup_request (scientificname : pyval) : request :=
  mkRequest ("https://api.obis.org/v3/taxon/complete/" ++ py_str scientificname)
            [].

(** The functions that fetch, each with its positional arguments. *)
Inductive fetcher : Type :=
| Fobis_GET (url : string) (args : dict) (ctype : string)
| Fobis_write_disk (url path : string) (ctype : pyval)
| Fsearch (scientificname : pyval)
| Ftaxon (id : pyval)
| Fannotations (scientificname : pyval)
| Flookup_taxon (scientificname : pyval).

(** A call [f(<positional arguments>, **kwargs)].  A keyword that names
    a parameter already given raises TypeError, and so does any keyword
    for [lookup_taxon], whose signature has no [**kwargs]. *)
Definition call_fetcher
  (network : list event -> request -> outcome response)
  (disk : list event -> event -> option exn)
  (f : fetcher) (kwargs : dict) : M pyval :=
  match f with
  | Fobis_GET url args ctype =>
      call_kw ["url"; "args"; "ctype"] kwargs
        (obis_GET network url args ctype kwargs)
  | Fobis_write_disk url path ctype =>
      call_kw ["url"; "path"; "ctype"] kwargs
        (p <- obis_write_disk network disk url path ctype kwargs ;;
         ret (PStr p))
  | Fsearch scientificname =>
      call_kw ["self"; "scientificname"] kwargs
        (search network scientificname kwargs)
  | Ftaxon id =>
      call_kw ["self"; "id"] kwargs (taxon network id kwargs)
  | Fannotations scientificname =>
      call_kw ["self"; "scientificname"] kwargs
        (annotations network scientificname kwargs)
  | Flookup_taxon scientificname =>
      match kwargs with
      | [] => lookup_taxon network scientificname
      | _ :: _ => raise TypeError
      end
  end.

(** The signature has [**kwargs]. *)
Definition takes_options (f : fetcher) : bool :=
  match f with
  | Flookup_taxon _ => false
  | _ => true
  end.

(** The call gets as far as the transport: [search] needs a name that
    normalizes to a str, [annotations] one that normalizes at all. *)
Definition reaches_transport (f : fetcher) : Prop :=
  match f with
  | Fsearch scientificname =>
      exists s, handle_arrstr scientificname = Ok (PStr s)
  | Fannotations scientificname =>
      exists v, handle_arrstr scientificname = Ok v
  | _ => True
  end.

(** The names that the call of [obis_GET] from a method binds: its three
    parameters, and the two keywords it gives [requests.get] itself. *)
Definition obis_GET_names : list string :=
  ["url"; "args"; "ctype"; "params"; "headers"].

(** The names each function binds on its way to [requests.get]: an
    option cannot have one of them. *)
Definition bound_names (f : fetcher) : list string :=
  match f with
  | Fobis_GET _ _ _ => obis_GET_names
  | Fobis_write_disk _ _ _ => ["url"; "path"; "ctype"; "stream"]
  | Fsearch _ => (["self"; "scientificname"] ++ obis_GET_names)%list
  | Ftaxon _ => (["self"; "id"] ++ obis_GET_names)%list
  | Fannotations _ => (["self"; "scientificname"] ++ obis_GET_names)%list
  | Flookup_taxon _ => ["self"; "scientificname"]
  end.

(** The call issues one request, and the keyword arguments of that
    request end with [kwargs] as they came in. *)
Definition forwards_verbatim
  (network : list event -> request -> outcome response)
  (disk : list event -> event -> option exn)
  (f : fetcher) (kwargs : dict) (w : world) : Prop :=
  exists r explicit,
    requests_of (trace (snd (call_fetcher network disk f kwargs w)))
      = (requests_of (trace w) ++ [r])%list /\
    req_options r = (explicit ++ kwargs)%list.

(** A computation that issues no request and leaves the attributes of
    the instance alone. *)
Definition quiet {A} (m : M A) : Prop :=
  forall w, exists t,
    snd (m w) = mkWorld (self_url w) (self_args w) (t ++ trace w)%list /\
    requests_of t = [].

(** ** Sample responses and a sample network *)

Definition mola_matches : pyval :=
  PList [PDict [("id", PInt 127405); ("scientificName", PStr "Mola mola")]].

Definition json_response (body : pyval) : response :=
  mkResponse 200 [("Content-Type", json_ctype)] (Ok body) (fun _ => ([], None)).

Definition html_response : response :=
  mkResponse 200 [("Content-Type", "text/html")] (Raise JSONDecodeError)
             (fun _ => ([], None)).

Definition not_found_response : response :=
  mkResponse 404 [("Content-Type", json_ctype)] (Ok (PDict []))
             (fun _ => ([], None)).

(** A server that answers every request with the matches for Mola mola. *)
Definition sample_network (t : list event) (r : request) : outcome response :=
  Ok (json_response mola_matches).

Definition stale_world : world :=
  mkWorld (Some "https://api.obis.org/v3/taxon/Mola mola")
          (Some [("scientificname", PStr "Mola mola"); ("taxonid", PNone)])
          [].

Definition empty_name_world : world :=
  mkWorld (Some "https://api.obis.org/v3/taxon/annotations")
          (Some [("scientificname", PStr ""); ("taxonid", PNone)])
          [].

(** ** Vocabulary of the further properties *)

(** The chunks written to [path] so far, earliest first. *)
Definition written (path : string) (t : list event) : list string :=
  rev (flat_map (fun ev => match ev with
                           | EvWrite p c => if String.eqb p path then [c] else []
                           | _ => []
                           end) t).

(** The files opened so far, earliest first. *)
Definition opened (t : list event) : list string :=
  rev (flat_map (fun ev => match ev with EvOpen p => [p] | _ => [] end) t).

Definition nonempty (s : string) : bool := negb (String.eqb s "").

Definition obis_write_disk_request (url : string) (kwargs : dict) : request :=
  mkRequest url ([("stream", PBool true)] ++ kwargs)%list.

(** The bytes a query string is made of: the unreserved ones, the
    percent sign, the plus sign, and the two separators. *)
Definition query_byte (c : ascii) : bool :=
  always_safe c || str_contains c "%+=&".

Definition is_ascii (c : ascii) : bool := (N_of_ascii c <? 128)%N.

Definition annotations_url : string := obis_baseurl ++ "taxon/annotations".

Definition not_found_json : response :=
  mkResponse 404 [("Content-Type", "text/html")]
             (Ok (PDict [("error", PStr "Not Found")])) (fun _ => ([], None)).

Definition no_header_response : response :=
  mkResponse 204 [("Date", "Wed, 04 Nov 2026 20:45:00 GMT")]
             (Raise JSONDecodeError) (fun _ => ([], None)).

Definition chunked_response : response :=
  mkResponse 200 [("Content-Type", "application/zip")] (Raise JSONDecodeError)
             (fun _ => (["PK"; ""; "data"; ""], None)).

Definition broken_response : response :=
  mkResponse 200 [("Content-Type", "application/zip")] (Raise JSONDecodeError)
             (fun _ => (["PK"; ""], Some RequestException)).

(** A disk that takes every operation, and one on which no file opens. *)
Definition good_disk (t : list event) (ev : event) : option exn := None.

Definition no_open_disk (t : list event) (ev : event) : option exn :=
  match ev with
  | EvOpen _ => Some OSError
  | _ => None
  end.

Definition no_match_response : response := json_response (PList []).

(** * Properties *)

(** ** Strings *)

Lemma append_nil_r (s : string) : s ++ "" = s.
Proof. induction s as [|c s IH]; simpl; [reflexivity | now rewrite IH]. Qed.

Lemma append_assoc (a b c : string) : (a ++ b) ++ c = a ++ (b ++ c).
Proof. induction a as [|x a IH]; simpl; [reflexivity | now rewrite IH]. Qed.

Lemma str_contains_app (c : ascii) (a b : string) :
  str_contains c (a ++ b) = str_contains c a || str_contains c b.
Proof.
  unfold str_contains.
  induction a as [|x a IH]; simpl; [reflexivity|].
  now rewrite IH, orb_assoc.
Qed.

Lemma replace_app (x y : ascii) (a b : string) :
  str_replace_char x y (a ++ b) = str_replace_char x y a ++ str_replace_char x y b.
Proof. induction a as [|c a IH]; simpl; [reflexivity | now rewrite IH]. Qed.

Lemma concat_nil_cons (x : string) (l : list string) :
  String.concat "" (x :: l) = x ++ String.concat "" l.
Proof.
  destruct l as [|y l]; simpl; [now rewrite append_nil_r | reflexivity].
Qed.

(** ** Percent-encoding, one byte at a time *)

Lemma replace_quoter_space (c : ascii) :
  str_replace_char " "%char "+"%char (quoter " " c) = plus_byte c.
Proof. each_byte c; reflexivity. Qed.

Lemma quoter_no_space (c : ascii) :
  Ascii.eqb " "%char c = false -> quoter "" c = plus_byte c.
Proof.
  unfold plus_byte. rewrite Ascii.eqb_sym. now intros ->.
Qed.

Lemma replace_concat_quoter (l : list ascii) :
  str_replace_char " "%char "+"%char (String.concat "" (map (quoter " ") l))
  = String.concat "" (map plus_byte l).
Proof.
  induction l as [|c l IH]; [reflexivity|].
  cbn [map]. rewrite !concat_nil_cons, replace_app, IH.
  now rewrite replace_quoter_space.
Qed.

Lemma concat_quoter_no_space (l : list ascii) :
  existsb (Ascii.eqb " "%char) l = false ->
  String.concat "" (map (quoter "") l) = String.concat "" (map plus_byte l).
Proof.
  induction l as [|c l IH]; [reflexivity|].
  cbn [map existsb]. intros H. apply orb_false_iff in H as [Hc Hl].
  rewrite !concat_nil_cons, IH by exact Hl.
  now rewrite quoter_no_space.
Qed.

(** [quote_plus] works byte by byte, whichever branch it takes. *)
Lemma quote_plus_bytes (s : string) :
  quote_plus s = String.concat "" (map plus_byte (list_ascii_of_string s)).
Proof.
  unfold quote_plus, quote, str_contains.
  destruct (existsb (Ascii.eqb " "%char) (list_ascii_of_string s)) eqn:E; cbn [negb].
  - apply replace_concat_quoter.
  - now apply concat_quoter_no_space.
Qed.

Lemma quote_plus_cons (c : ascii) (s : string) :
  quote_plus (String c s) = plus_byte c ++ quote_plus s.
Proof.
  rewrite !quote_plus_bytes. cbn [list_ascii_of_string map].
  apply concat_nil_cons.
Qed.

Lemma plus_byte_no_amp (c : ascii) : str_contains "&"%char (plus_byte c) = false.
Proof. each_byte c; reflexivity. Qed.

Lemma plus_byte_no_eq (c : ascii) : str_contains "="%char (plus_byte c) = false.
Proof. each_byte c; reflexivity. Qed.

Lemma quote_plus_no_amp (s : string) : str_contains "&"%char (quote_plus s) = false.
Proof.
  induction s as [|c s IH]; [reflexivity|].
  now rewrite quote_plus_cons, str_contains_app, plus_byte_no_amp, IH.
Qed.

Lemma quote_plus_no_eq (s : string) : str_contains "="%char (quote_plus s) = false.
Proof.
  induction s as [|c s IH]; [reflexivity|].
  now rewrite quote_plus_cons, str_contains_app, plus_byte_no_eq, IH.
Qed.

Lemma unquote_plus_byte (c : ascii) (r : string) :
  unquote (str_replace_char "+"%char " "%char (plus_byte c) ++ r)
  = String c (unquote r).
Proof. each_byte c; reflexivity. Qed.

(** Decoding undoes encoding. *)
Lemma unquote_plus_quote_plus (s : string) : unquote_plus (quote_plus s) = s.
Proof.
  unfold unquote_plus.
  induction s as [|c s IH]; [reflexivity|].
  now rewrite quote_plus_cons, replace_app, unquote_plus_byte, IH.
Qed.

(** ** Splitting a query string *)

Lemma split_on_no_sep (sep : ascii) (s : string) :
  str_contains sep s = false -> split_on sep s = [s].
Proof.
  unfold str_contains.
  induction s as [|c s IH]; [reflexivity|].
  cbn [list_ascii_of_string existsb split_on]. intros H.
  apply orb_false_iff in H as [Hc Hs].
  rewrite Ascii.eqb_sym, Hc, IH by exact Hs. reflexivity.
Qed.

Lemma split_on_app_sep (sep : ascii) (a t : string) :
  str_contains sep a = false ->
  split_on sep (a ++ String sep t) = a :: split_on sep t.
Proof.
  unfold str_contains.
  induction a as [|c a IH]; cbn [list_ascii_of_string existsb append split_on].
  - intros _. now rewrite Ascii.eqb_refl.
  - intros H. apply orb_false_iff in H as [Hc Ha].
    rewrite Ascii.eqb_sym, Hc, IH by exact Ha. reflexivity.
Qed.

Lemma split_on_concat (sep : ascii) (x : string) (l : list string) :
  Forall (fun s => str_contains sep s = false) (x :: l) ->
  split_on sep (String.concat (String sep "") (x :: l)) = x :: l.
Proof.
  revert x. induction l as [|y l IH]; intros x H.
  - apply split_on_no_sep. now inversion H.
  - change (String.concat (String sep "") (x :: y :: l))
      with (x ++ String sep "" ++ String.concat (String sep "") (y :: l)).
    inversion H as [|? ? Hx Hl]; subst.
    cbn [append]. rewrite split_on_app_sep by exact Hx.
    now rewrite IH.
Qed.

Lemma split_first_app_sep (sep : ascii) (a b : string) :
  str_contains sep a = false ->
  split_first sep (a ++ String sep b) = (a, b).
Proof.
  unfold str_contains.
  induction a as [|c a IH]; cbn [list_ascii_of_string existsb append split_first].
  - intros _. now rewrite Ascii.eqb_refl.
  - intros H. apply orb_false_iff in H as [Hc Ha].
    rewrite Ascii.eqb_sym, Hc, IH by exact Ha. reflexivity.
Qed.

Lemma encode_item_no_amp (kv : string * pyval) :
  str_contains "&"%char (encode_item kv) = false.
Proof.
  unfold encode_item.
  now rewrite !str_contains_app, !quote_plus_no_amp.
Qed.

Lemma encode_item_not_empty (kv : string * pyval) :
  String.eqb (encode_item kv) "" = false.
Proof.
  unfold encode_item.
  destruct (quote_plus (fst kv)); reflexivity.
Qed.

Lemma decode_encode_item (kv : string * pyval) :
  (let (n, v) := split_first "="%char (encode_item kv) in
   (unquote_plus n, unquote_plus v)) = decoded_item kv.
Proof.
  unfold encode_item. cbn [append].
  rewrite split_first_app_sep by apply quote_plus_no_eq.
  now rewrite !unquote_plus_quote_plus.
Qed.

Lemma urlencode_items (d : dict) :
  urlencode d = String.concat "&" (map encode_item d).
Proof. reflexivity. Qed.

(** Reading the query string back gives the items that went in, in
    their order. *)
Lemma parse_qsl_urlencode (d : dict) :
  parse_qsl (urlencode d) = map decoded_item d.
Proof.
  rewrite urlencode_items. unfold parse_qsl.
  destruct d as [|kv d]; [reflexivity|].
  cbn [map]. rewrite split_on_concat.
  - rewrite <- map_cons.
    assert (F : forall l : dict,
               filter (fun nv => negb (String.eqb nv "")) (map encode_item l)
               = map encode_item l).
    { induction l as [|a l IH]; [reflexivity|].
      cbn [map filter]. now rewrite encode_item_not_empty, IH. }
    rewrite F, map_map.
    change (decoded_item kv :: map decoded_item d)
      with (map decoded_item (kv :: d)).
    apply map_ext. intros a. apply decode_encode_item.
  - rewrite <- map_cons. apply Forall_forall.
    intros s Hs. apply in_map_iff in Hs as [a [<- _]].
    apply encode_item_no_amp.
Qed.

(** ** Dictionaries *)

Lemma dict_set_fresh (d : dict) (k : string) (v : pyval) :
  ~ In k (dict_keys d) -> dict_set d k v = (d ++ [(k, v)])%list.
Proof.
  induction d as [|[k' v'] d IH]; [reflexivity|].
  cbn [dict_keys map fst In dict_set app]. intros H.
  destruct (String.eqb_spec k' k) as [->|_].
  - exfalso. apply H. now left.
  - rewrite IH; [reflexivity|]. intros Hin. apply H. now right.
Qed.

Lemma present_items_keys (args : dict) (k : string) :
  In k (dict_keys (present_items args)) -> In k (dict_keys args).
Proof.
  unfold dict_keys, present_items. intros H.
  apply in_map_iff in H as [kv [<- Hkv]].
  apply filter_In in Hkv as [Hkv _]. now apply in_map.
Qed.

Lemma not_none_items_from (args acc : dict) :
  NoDup (dict_keys acc ++ dict_keys args) ->
  fold_left
    (fun a kv => if is_none (snd kv) then a else dict_set a (fst kv) (snd kv))
    args acc
  = (acc ++ present_items args)%list.
Proof.
  revert acc. induction args as [|[k v] args IH]; intros acc H.
  - cbn. now rewrite app_nil_r.
  - cbn [fold_left fst snd present_items filter].
    cbn [dict_keys map fst] in H.
    destruct (is_none v) eqn:E; cbn [negb].
    + apply IH. now apply NoDup_remove_1 in H.
    + rewrite dict_set_fresh.
      * rewrite IH.
        -- now rewrite <- app_assoc.
        -- unfold dict_keys in *. rewrite map_app, <- app_assoc. exact H.
      * apply NoDup_remove_2 in H. intros Hin. apply H.
        apply in_or_app. now left.
Qed.

(** On a dict the comprehension is a filter. *)
Lemma not_none_items_filter (args : dict) :
  dict_wf args -> not_none_items args = present_items args.
Proof.
  intros H. unfold not_none_items. now rewrite not_none_items_from.
Qed.

Lemma not_eq_none_items_same (args : dict) :
  not_eq_none_items args = not_none_items args.
Proof.
  unfold not_eq_none_items, not_none_items.
  generalize (@nil (string * pyval)).
  induction args as [|[k v] args IH]; intros acc; [reflexivity|].
  cbn [fold_left fst snd]. rewrite IH. now destruct (is_none v).
Qed.

Lemma dict_get_In (d : dict) (k : string) (v : pyval) :
  dict_get d k = Some v -> In (k, v) d.
Proof.
  induction d as [|[k' v'] d IH]; [discriminate|].
  cbn [dict_get]. destruct (String.eqb_spec k' k) as [->|_].
  - intros [= ->]. now left.
  - intros H. right. now apply IH.
Qed.

Lemma In_dict_get (d : dict) (k : string) (v : pyval) :
  dict_wf d -> In (k, v) d -> dict_get d k = Some v.
Proof.
  unfold dict_wf, dict_keys.
  induction d as [|[k' v'] d IH]; [contradiction|].
  cbn [map fst dict_get]. intros Hnd [[= -> ->]|Hin].
  - now rewrite String.eqb_refl.
  - inversion Hnd as [|? ? Hk' Hd]; subst.
    destruct (String.eqb_spec k' k) as [->|_].
    + exfalso. apply Hk'. now apply (in_map fst) in Hin.
    + now apply IH.
Qed.

Lemma present_items_wf (args : dict) :
  dict_wf args -> dict_wf (present_items args).
Proof.
  unfold dict_wf, dict_keys, present_items.
  induction args as [|[k v] args IH]; [trivial|].
  cbn [map fst filter snd]. intros H.
  inversion H as [|? ? Hk Hd]; subst.
  destruct (negb (is_none v)); [|now apply IH].
  cbn [map fst]. constructor; [|now apply IH].
  intros Hin. apply Hk. now apply present_items_keys.
Qed.

Lemma map_fst_decoded (d : dict) : map fst (map decoded_item d) = dict_keys d.
Proof. unfold dict_keys. rewrite map_map. reflexivity. Qed.

(** C2. For a dict of query arguments, [build_api_url] gives the base,
    a question mark and the query string that joins with [&] the
    percent-encoded [name=value] of the items whose value is not None,
    in the order of the dict: read back, the query string holds no
    parameter for an item whose value is None, and exactly one, with
    its value, for every other item.  [get_search_url] serializes the
    stored pair the same way. *)
Theorem build_api_url_query (url : string) (args : dict) :
  dict_wf args ->
  exists q : string,
    build_api_url url args = url ++ "?" ++ q /\
    q = String.concat "&" (map encode_item (present_items args)) /\
    parse_qsl q = map decoded_item (present_items args) /\
    (forall k, dict_get args k = Some PNone ->
               ~ In k (map fst (parse_qsl q))) /\
    (forall k v, dict_get args k = Some v -> v <> PNone ->
                 In (k, py_str v) (parse_qsl q) /\
                 count_occ string_dec (map fst (parse_qsl q)) k = 1%nat) /\
    (forall w, self_url w = Some url -> self_args w = Some args ->
               get_search_url w = (Ok (url ++ "?" ++ q), w)).
Proof.
  intros Hwf. exists (urlencode (not_none_items args)).
  rewrite not_none_items_filter by exact Hwf.
  assert (P : parse_qsl (urlencode (present_items args))
              = map decoded_item (present_items args))
    by apply parse_qsl_urlencode.
  split; [unfold build_api_url; now rewrite not_none_items_filter|].
  split; [reflexivity|].
  split; [exact P|].
  split; [|split; [intros k v Hk Hv; split|]].
  - intros k Hk. rewrite P, map_fst_decoded. intros Hin.
    unfold dict_keys in Hin. apply in_map_iff in Hin as [[k' v] [Hfst Hkv]].
    cbn in Hfst. subst k'.
    apply filter_In in Hkv as [Hkv Hv].
    apply (In_dict_get _ _ _ Hwf) in Hkv.
    rewrite Hk in Hkv. injection Hkv as <-. discriminate.
  - rewrite P.
    change (k, py_str v) with (decoded_item (k, v)). apply in_map.
    apply filter_In. split; [now apply dict_get_In|].
    destruct v; try reflexivity. now contradiction Hv.
  - rewrite P, map_fst_decoded.
    assert (Hin : In k (dict_keys (present_items args))).
    { unfold dict_keys. change k with (fst (k, v)). apply in_map.
      apply filter_In. split; [now apply dict_get_In|].
      destruct v; try reflexivity. now contradiction Hv. }
    apply (count_occ_In string_dec) in Hin.
    pose proof (present_items_wf _ Hwf) as Hnd.
    apply (proj1 (NoDup_count_occ string_dec _)) with (x := k) in Hnd.
    lia.
  - intros w Hu Ha. unfold get_search_url, bind, get_url, get_args, ret.
    rewrite Hu, Ha, not_eq_none_items_same, not_none_items_filter by exact Hwf.
    reflexivity.
Qed.

(** ** The fetcher *)

Lemma headers_getitem_missing (h : list (string * string)) (name : string) :
  (forall k v, In (k, v) h -> str_lower k <> str_lower name) ->
  headers_getitem h name = Raise (KeyError name).
Proof.
  induction h as [|[k v] h IH]; intros H; [reflexivity|].
  cbn [headers_getitem].
  destruct (String.eqb_spec (str_lower k) (str_lower name)) as [E|_].
  - exfalso. apply (H k v); [now left | exact E].
  - apply IH. intros k' v' Hin. apply (H k' v'). now right.
Qed.

(** [obis_GET] up to the response: the keyword check passes and the
    request is logged. *)
Lemma obis_GET_after_request
  (network : list event -> request -> outcome response)
  (url : string) (args : dict) (ctype : string) (kwargs : dict)
  (w : world) (out : response) :
  clashes ["url"; "params"; "headers"] kwargs = false ->
  network (trace w) (obis_GET_request url args kwargs) = Ok out ->
  obis_GET network url args ctype kwargs w
  = (raise_for_status out ;;
     x <- lift (headers_getitem (headers out) "content-type") ;;
     stopifnot x ctype ;;
     response_json out)
      (mkWorld (self_url w) (self_args w)
               (EvGet (obis_GET_request url args kwargs) :: trace w)).
Proof.
  intros Hk Hnet.
  unfold obis_GET, requests_get, call_kw.
  change (clashes ("url" :: dict_keys
            [("params", PDict args); ("headers", PDict obis_headers)]) kwargs)
    with (clashes ["url"; "params"; "headers"] kwargs).
  rewrite Hk. unfold bind at 1.
  change (mkRequest url
            ([("params", PDict args); ("headers", PDict obis_headers)] ++ kwargs)%list)
    with (obis_GET_request url args kwargs).
  now rewrite Hnet.
Qed.

Lemma obis_GET_failure
  (network : list event -> request -> outcome response)
  (url : string) (args : dict) (ctype : string) (kwargs : dict)
  (w : world) (out : response) :
  clashes ["url"; "params"; "headers"] kwargs = false ->
  network (trace w) (obis_GET_request url args kwargs) = Ok out ->
  http_failure (status_code out) = true ->
  obis_GET network url args ctype kwargs w
  = (Raise (HTTPError (status_code out)),
     mkWorld (self_url w) (self_args w)
       (EvRaiseForStatus (status_code out)
          :: EvGet (obis_GET_request url args kwargs) :: trace w)).
Proof.
  intros Hk Hnet Hst.
  rewrite (obis_GET_after_request _ _ _ _ _ _ _ Hk Hnet).
  unfold raise_for_status, bind, tick, raise.
  cbn [self_url self_args trace]. now rewrite Hst.
Qed.

Lemma obis_GET_mismatch
  (network : list event -> request -> outcome response)
  (url : string) (args : dict) (ctype : string) (kwargs : dict)
  (w : world) (out : response) (x : string) :
  clashes ["url"; "params"; "headers"] kwargs = false ->
  network (trace w) (obis_GET_request url args kwargs) = Ok out ->
  http_failure (status_code out) = false ->
  headers_getitem (headers out) "content-type" = Ok x ->
  x <> ctype ->
  obis_GET network url args ctype kwargs w
  = (Raise (NoResultException ("content-type did not equal " ++ ctype)),
     mkWorld (self_url w) (self_args w)
       (EvStopifnot x ctype :: EvRaiseForStatus (status_code out)
          :: EvGet (obis_GET_request url args kwargs) :: trace w)).
Proof.
  intros Hk Hnet Hst Hx Hne.
  rewrite (obis_GET_after_request _ _ _ _ _ _ _ Hk Hnet).
  unfold raise_for_status, stopifnot, bind, tick, raise, ret, lift.
  cbn [self_url self_args trace]. rewrite Hst, Hx.
  destruct (String.eqb_spec x ctype) as [E|_]; [contradiction|reflexivity].
Qed.

Lemma obis_GET_match
  (network : list event -> request -> outcome response)
  (url : string) (args : dict) (ctype : string) (kwargs : dict)
  (w : world) (out : response) :
  clashes ["url"; "params"; "headers"] kwargs = false ->
  network (trace w) (obis_GET_request url args kwargs) = Ok out ->
  http_failure (status_code out) = false ->
  headers_getitem (headers out) "content-type" = Ok ctype ->
  obis_GET network url args ctype kwargs w
  = (json out,
     mkWorld (self_url w) (self_args w)
       (EvJson :: EvStopifnot ctype ctype :: EvRaiseForStatus (status_code out)
          :: EvGet (obis_GET_request url args kwargs) :: trace w)).
Proof.
  intros Hk Hnet Hst Hx.
  rewrite (obis_GET_after_request _ _ _ _ _ _ _ Hk Hnet).
  unfold raise_for_status, stopifnot, response_json, bind, tick, raise, ret, lift.
  cbn [self_url self_args trace]. rewrite Hst, Hx, String.eqb_refl.
  cbn [negb self_url self_args trace]. reflexivity.
Qed.

Lemma obis_GET_no_header
  (network : list event -> request -> outcome response)
  (url : string) (args : dict) (ctype : string) (kwargs : dict)
  (w : world) (out : response) :
  clashes ["url"; "params"; "headers"] kwargs = false ->
  network (trace w) (obis_GET_request url args kwargs) = Ok out ->
  http_failure (status_code out) = false ->
  (forall k v, In (k, v) (headers out) -> str_lower k <> "content-type") ->
  obis_GET network url args ctype kwargs w
  = (Raise (KeyError "content-type"),
     mkWorld (self_url w) (self_args w)
       (EvRaiseForStatus (status_code out)
          :: EvGet (obis_GET_request url args kwargs) :: trace w)).
Proof.
  intros Hk Hnet Hst Hh.
  rewrite (obis_GET_after_request _ _ _ _ _ _ _ Hk Hnet).
  unfold raise_for_status, bind, tick, raise, ret, lift.
  cbn [self_url self_args trace]. rewrite Hst.
  now rewrite (headers_getitem_missing _ "content-type" Hh).
Qed.

(** C1, as the code has it.  Given the response to the request of
    [obis_GET]: a 4xx or 5xx status raises the HTTP error and the
    content type is never compared; otherwise a response with no
    content-type header raises KeyError at the lookup, and nothing is
    compared or parsed; otherwise a content-type header that differs
    from the expected one raises NoResultException and the body is never
    parsed; otherwise the result is what parsing the body as JSON gives.
    The events after the request show the order: the status check, then
    the comparison, then the parse. *)
Theorem obis_GET_order
  (network : list event -> request -> outcome response)
  (url : string) (args : dict) (ctype : string) (kwargs : dict)
  (w : world) (out : response) :
  clashes ["url"; "params"; "headers"] kwargs = false ->
  network (trace w) (obis_GET_request url args kwargs) = Ok out ->
  (http_failure (status_code out) = true ->
     fst (obis_GET network url args ctype kwargs w)
       = Raise (HTTPError (status_code out)) /\
     trace (snd (obis_GET network url args ctype kwargs w))
       = EvRaiseForStatus (status_code out)
           :: EvGet (obis_GET_request url args kwargs) :: trace w) /\
  (http_failure (status_code out) = false ->
   (forall k v, In (k, v) (headers out) -> str_lower k <> "content-type") ->
     fst (obis_GET network url args ctype kwargs w)
       = Raise (KeyError "content-type") /\
     trace (snd (obis_GET network url args ctype kwargs w))
       = EvRaiseForStatus (status_code out)
           :: EvGet (obis_GET_request url args kwargs) :: trace w) /\
  (http_failure (status_code out) = false ->
   forall x, headers_getitem (headers out) "content-type" = Ok x ->
     x <> ctype ->
     fst (obis_GET network url args ctype kwargs w)
       = Raise (NoResultException ("content-type did not equal " ++ ctype)) /\
     trace (snd (obis_GET network url args ctype kwargs w))
       = EvStopifnot x ctype :: EvRaiseForStatus (status_code out)
           :: EvGet (obis_GET_request url args kwargs) :: trace w) /\
  (http_failure (status_code out) = false ->
   headers_getitem (headers out) "content-type" = Ok ctype ->
     fst (obis_GET network url args ctype kwargs w) = json out /\
     trace (snd (obis_GET network url args ctype kwargs w))
       = EvJson :: EvStopifnot ctype ctype :: EvRaiseForStatus (status_code out)
           :: EvGet (obis_GET_request url args kwargs) :: trace w).
Proof.
  intros Hk Hnet.
  split; [|split; [|split]].
  - intros Hst.
    now rewrite (obis_GET_failure _ _ _ ctype _ _ _ Hk Hnet Hst).
  - intros Hst Hh.
    now rewrite (obis_GET_no_header _ _ _ ctype _ _ _ Hk Hnet Hst Hh).
  - intros Hst x Hx Hne.
    now rewrite (obis_GET_mismatch _ _ _ _ _ _ _ _ Hk Hnet Hst Hx Hne).
  - intros Hst Hx.
    now rewrite (obis_GET_match _ _ _ _ _ _ _ Hk Hnet Hst Hx).
Qed.

(** What [obis_GET] leaves behind: the attributes of the instance as
    they were, and new events of which exactly one is a request. *)
Lemma obis_GET_world
  (network : list event -> request -> outcome response)
  (url : string) (args : dict) (ctype : string) (kwargs : dict) (w : world) :
  clashes ["url"; "params"; "headers"] kwargs = false ->
  exists t,
    snd (obis_GET network url args ctype kwargs w)
      = mkWorld (self_url w) (self_args w)
                (t ++ EvGet (obis_GET_request url args kwargs) :: trace w)%list /\
    requests_of t = [].
Proof.
  intros Hk.
  unfold obis_GET, requests_get, call_kw, bind.
  change (clashes ("url" :: dict_keys
            [("params", PDict args); ("headers", PDict obis_headers)]) kwargs)
    with (clashes ["url"; "params"; "headers"] kwargs).
  rewrite Hk.
  change (mkRequest url
            ([("params", PDict args); ("headers", PDict obis_headers)] ++ kwargs)%list)
    with (obis_GET_request url args kwargs).
  destruct (network (trace w) (obis_GET_request url args kwargs)) as [out|e].
  2: { exists []. split; reflexivity. }
  unfold raise_for_status, bind, tick, raise, ret, lift.
  cbn [self_url self_args trace].
  destruct (http_failure (status_code out)).
  { exists [EvRaiseForStatus (status_code out)]. split; reflexivity. }
  destruct (headers_getitem (headers out) "content-type") as [x|e].
  2: { exists [EvRaiseForStatus (status_code out)]. split; reflexivity. }
  unfold stopifnot, response_json, bind, tick, raise, ret, lift.
  cbn [self_url self_args trace].
  destruct (negb (String.eqb x ctype)).
  { exists [EvStopifnot x ctype; EvRaiseForStatus (status_code out)].
    split; reflexivity. }
  exists [EvJson; EvStopifnot x ctype; EvRaiseForStatus (status_code out)].
  cbn [self_url self_args trace]. destruct (json out); split; reflexivity.
Qed.

Lemma requests_of_app (t1 t2 : list event) :
  requests_of (t1 ++ t2) = (requests_of t2 ++ requests_of t1)%list.
Proof.
  unfold requests_of. now rewrite flat_map_app, rev_app_distr.
Qed.

Lemma clashes_incl (names names' : list string) (kwargs : dict) :
  incl names' names ->
  clashes names kwargs = false -> clashes names' kwargs = false.
Proof.
  unfold clashes. intros Hincl H.
  apply not_true_is_false. intros Hc.
  apply existsb_exists in Hc as [k [Hk Hx]].
  apply existsb_exists in Hx as [n [Hn Hkn]].
  assert (Ht : existsb (fun k => existsb (String.eqb k) names) (dict_keys kwargs)
               = true).
  { apply existsb_exists. exists k. split; [exact Hk|].
    apply existsb_exists. exists n. split; [now apply Hincl | exact Hkn]. }
  congruence.
Qed.

(** ** The facade *)

(** C3. [search(scientificname="Mola mola")] stores the URL and the
    arguments whose serialization is
    https://api.obis.org/v3/taxon/Mola mola?scientificname=Mola+mola,
    and on a 200 response with the JSON content type it returns the
    decoded body as it is. *)
Theorem search_mola_mola
  (network : list event -> request -> outcome response)
  (w : world) (out : response) (body : pyval) :
  network (trace w)
    (obis_GET_request "https://api.obis.org/v3/taxon/Mola mola"
       [("scientificname", PStr "Mola mola")] []) = Ok out ->
  status_code out = 200%Z ->
  headers_getitem (headers out) "content-type" = Ok json_ctype ->
  json out = Ok body ->
  fst (search network (PStr "Mola mola") [] w) = Ok body /\
  fst (get_search_url (snd (search network (PStr "Mola mola") [] w)))
    = Ok "https://api.obis.org/v3/taxon/Mola mola?scientificname=Mola+mola" /\
  build_api_url "https://api.obis.org/v3/taxon/Mola mola"
    [("scientificname", PStr "Mola mola")]
    = "https://api.obis.org/v3/taxon/Mola mola?scientificname=Mola+mola".
Proof.
  intros Hnet Hst Hct Hbody.
  assert (Hs : search network (PStr "Mola mola") [] w
               = obis_GET network "https://api.obis.org/v3/taxon/Mola mola"
                   [("scientificname", PStr "Mola mola")] json_ctype []
                   (mkWorld (Some "https://api.obis.org/v3/taxon/Mola mola")
                            (Some [("scientificname", PStr "Mola mola")])
                            (trace w)))
    by reflexivity.
  rewrite Hs.
  assert (Hf : http_failure (status_code out) = false) by now rewrite Hst.
  rewrite (obis_GET_match network "https://api.obis.org/v3/taxon/Mola mola"
             [("scientificname", PStr "Mola mola")] json_ctype []
             (mkWorld (Some "https://api.obis.org/v3/taxon/Mola mola")
                      (Some [("scientificname", PStr "Mola mola")])
                      (trace w))
             out eq_refl Hnet Hf Hct).
  cbn [fst snd]. split; [exact Hbody|]. split; reflexivity.
Qed.

(** ** The parameter normalizer *)

Lemma expect_strs_map (strs : list string) :
  expect_strs (map PStr strs) = Ok strs.
Proof.
  induction strs as [|s strs IH]; [reflexivity|].
  cbn [map expect_strs]. now rewrite IH.
Qed.

Lemma expect_strs_not_str (l : list pyval) (v : pyval) :
  In v l -> (forall s, v <> PStr s) -> expect_strs l = Raise TypeError.
Proof.
  intros Hin Hv.
  induction l as [|a l IH]; [contradiction|].
  destruct Hin as [->|Hin].
  - destruct v; try reflexivity. now contradiction (Hv s).
  - destruct a; try reflexivity.
    cbn [expect_strs]. now rewrite IH.
Qed.

Lemma handle_arrstr_other (x : pyval) :
  x <> PNone -> (forall s, x <> PStr s) ->
  handle_arrstr x = obind (str_join "," x) (fun s => Ok (PStr s)).
Proof.
  intros Hn Hs.
  destruct x; try reflexivity; [now contradiction Hn | now contradiction (Hs s)].
Qed.

(** C4, as the code has it.  [handle_arrstr] gives None for None and a
    str as it is; for another iterable whose items are all str it gives
    the items joined with a comma; a value that is not iterable (a bool,
    an int) or an item that is not a str raises TypeError there. *)
Theorem handle_arrstr_cases (x : pyval) :
  (x = PNone -> handle_arrstr x = Ok PNone) /\
  (forall s, x = PStr s -> handle_arrstr x = Ok x) /\
  (forall items strs,
      x <> PNone -> (forall s, x <> PStr s) ->
      py_iter x = Ok items -> items = map PStr strs ->
      handle_arrstr x = Ok (PStr (String.concat "," strs))) /\
  (forall items v,
      x <> PNone -> (forall s, x <> PStr s) ->
      py_iter x = Ok items -> In v items -> (forall s, v <> PStr s) ->
      handle_arrstr x = Raise TypeError) /\
  (x <> PNone -> (forall s, x <> PStr s) ->
      py_iter x = Raise TypeError -> handle_arrstr x = Raise TypeError) /\
  handle_arrstr (PList [PStr "Mola mola"; PStr "Abra alba"])
    = Ok (PStr "Mola mola,Abra alba") /\
  handle_arrstr (PStr "Mola mola") = Ok (PStr "Mola mola").
Proof.
  split; [now intros ->|].
  split; [now intros s ->|].
  split; [|split; [|split; [|split; reflexivity]]].
  - intros items strs Hn Hs Hit ->.
    rewrite handle_arrstr_other by assumption.
    unfold str_join. rewrite Hit. cbn [obind].
    now rewrite expect_strs_map.
  - intros items v Hn Hs Hit Hin Hv.
    rewrite handle_arrstr_other by assumption.
    unfold str_join. rewrite Hit. cbn [obind].
    now rewrite (expect_strs_not_str _ _ Hin Hv).
  - intros Hn Hs Hit.
    rewrite handle_arrstr_other by assumption.
    unfold str_join. now rewrite Hit.
Qed.

Lemma str_items_expect (items : list pyval) :
  expect_strs (map (fun i => PStr (py_str i)) items) = Ok (map py_str items).
Proof.
  induction items as [|a items IH]; [reflexivity|].
  cbn [map expect_strs]. now rewrite IH.
Qed.

Lemma handle_arrint_other (x : pyval) :
  x <> PNone -> (forall z, x <> PInt z) ->
  handle_arrint x
  = obind (py_iter x)
      (fun items =>
         obind (str_join "," (PList (map (fun i => PStr (py_str i)) items)))
               (fun s => Ok (PStr s))).
Proof.
  intros Hn Hz.
  destruct x; try reflexivity; [now contradiction Hn | now contradiction (Hz z)].
Qed.

(** C5, as the code has it.  [handle_arrint] gives None for None and an
    int as it is (still an int); for another iterable it gives the
    [str] of its items joined with a comma; a value that is not iterable
    (a bool) raises TypeError. *)
Theorem handle_arrint_cases (x : pyval) :
  (x = PNone -> handle_arrint x = Ok PNone) /\
  (forall z, x = PInt z -> handle_arrint x = Ok (PInt z)) /\
  (forall items,
      x <> PNone -> (forall z, x <> PInt z) -> py_iter x = Ok items ->
      handle_arrint x = Ok (PStr (String.concat "," (map py_str items)))) /\
  (x <> PNone -> (forall z, x <> PInt z) -> py_iter x = Raise TypeError ->
      handle_arrint x = Raise TypeError) /\
  handle_arrint (PList [PInt 1; PInt 2; PInt 3]) = Ok (PStr "1,2,3") /\
  handle_arrint (PInt 5) = Ok (PInt 5).
Proof.
  split; [now intros ->|].
  split; [now intros z ->|].
  split; [|split; [|split; reflexivity]].
  - intros items Hn Hz Hit.
    rewrite handle_arrint_other by assumption.
    rewrite Hit. cbn [obind]. unfold str_join. cbn [py_iter obind].
    now rewrite str_items_expect.
  - intros Hn Hz Hit.
    rewrite handle_arrint_other by assumption.
    now rewrite Hit.
Qed.

(** ** The facade: failures *)

(** C6. [search] with no name: the normalizer gives None, adding None to
    the URL string raises TypeError, and the world is left as it was:
    nothing is stored on the instance and no request is issued. *)
Theorem search_none_type_error
  (network : list event -> request -> outcome response)
  (kwargs : dict) (w : world) :
  handle_arrstr PNone = Ok PNone /\
  str_add (obis_baseurl ++ "taxon/") PNone = Raise TypeError /\
  search network PNone kwargs w = (Raise TypeError, w) /\
  requests_of (trace (snd (search network PNone kwargs w)))
    = requests_of (trace w).
Proof. repeat split. Qed.

(** C8. A fresh instance has neither [url] nor [args], and
    [get_search_url] on it raises AttributeError. *)
Theorem get_search_url_fresh :
  self_url init = None /\ self_args init = None /\
  get_search_url init = (Raise (AttributeError "url"), init).
Proof. repeat split. Qed.

Lemma obis_GET_keeps_args
  (network : list event -> request -> outcome response)
  (url : string) (args : dict) (ctype : string) (kwargs : dict) (w : world) :
  self_args (snd (call_kw ["url"; "args"; "ctype"] kwargs
                    (obis_GET network url args ctype kwargs) w))
  = self_args w.
Proof.
  unfold call_kw.
  destruct (clashes ["url"; "args"; "ctype"] kwargs); [reflexivity|].
  destruct (clashes ["url"; "params"; "headers"] kwargs) eqn:Hk.
  - unfold obis_GET, requests_get, call_kw, bind.
    change (clashes ("url" :: dict_keys
              [("params", PDict args); ("headers", PDict obis_headers)]) kwargs)
      with (clashes ["url"; "params"; "headers"] kwargs).
    now rewrite Hk.
  - destruct (obis_GET_world network url args ctype kwargs w Hk) as [t [-> _]].
    reflexivity.
Qed.

Lemma search_stores_args
  (network : list event -> request -> outcome response)
  (scientificname : pyval) (s : string) (kwargs : dict) (w : world) :
  handle_arrstr scientificname = Ok (PStr s) ->
  self_args (snd (search network scientificname kwargs w))
  = Some [("scientificname", PStr s)].
Proof.
  intros H. unfold search, bind, lift. rewrite H.
  cbn [str_add set_url set_args get_url get_args self_url self_args trace].
  now rewrite obis_GET_keeps_args.
Qed.

Lemma taxon_stores_args
  (network : list event -> request -> outcome response)
  (id : pyval) (kwargs : dict) (w : world) :
  self_args (snd (taxon network id kwargs w)) = Some [].
Proof.
  unfold taxon, bind.
  cbn [set_url set_args get_url get_args self_url self_args trace].
  now rewrite obis_GET_keeps_args.
Qed.

(** C7. When the stored args have no "taxonid" key, [get_mapper_url]
    raises KeyError for that key and changes nothing; the args that
    [search] stores (only "scientificname") and those that [taxon]
    stores (none) are of that kind. *)
Theorem get_mapper_url_key_error
  (network : list event -> request -> outcome response) :
  (forall w args,
      self_args w = Some args -> dict_get args "taxonid" = None ->
      get_mapper_url network w = (Raise (KeyError "taxonid"), w)) /\
  (forall scientificname s kwargs w,
      handle_arrstr scientificname = Ok (PStr s) ->
      fst (get_mapper_url network (snd (search network scientificname kwargs w)))
      = Raise (KeyError "taxonid")) /\
  (forall id kwargs w,
      fst (get_mapper_url network (snd (taxon network id kwargs w)))
      = Raise (KeyError "taxonid")).
Proof.
  assert (G : forall w args,
             self_args w = Some args -> dict_get args "taxonid" = None ->
             get_mapper_url network w = (Raise (KeyError "taxonid"), w)).
  { intros w args Ha Hk.
    unfold get_mapper_url, bind, get_args, lift, dict_getitem.
    now rewrite Ha, Hk. }
  split; [exact G|]. split.
  - intros scientificname s kwargs w H.
    now rewrite (G _ _ (search_stores_args network _ _ kwargs w H) eq_refl).
  - intros id kwargs w.
    now rewrite (G _ _ (taxon_stores_args network id kwargs w) eq_refl).
Qed.

(** ** Requests and quiet computations *)

Lemma quiet_ret {A} (a : A) : quiet (ret a).
Proof. intros w. exists []. destruct w; split; reflexivity. Qed.

Lemma quiet_raise {A} (e : exn) : quiet (@raise A e).
Proof. intros w. exists []. destruct w; split; reflexivity. Qed.

Lemma quiet_lift {A} (o : outcome A) : quiet (lift o).
Proof. intros w. exists []. destruct w; split; reflexivity. Qed.

Lemma quiet_tick (ev : event) :
  (forall r, ev <> EvGet r) -> quiet (tick ev).
Proof.
  intros H w. exists [ev]. split; [reflexivity|].
  destruct ev; try reflexivity. now contradiction (H r).
Qed.

Lemma quiet_bind {A B} (m : M A) (k : A -> M B) :
  quiet m -> (forall a, quiet (k a)) -> quiet (bind m k).
Proof.
  intros Hm Hk w. unfold bind.
  destruct (Hm w) as [t1 [H1 R1]].
  destruct (m w) as [[a|e] w1]; cbn [snd] in H1; subst w1.
  - destruct (Hk a (mkWorld (self_url w) (self_args w) (t1 ++ trace w)%list))
      as [t2 [H2 R2]].
    exists (t2 ++ t1)%list. split.
    + rewrite H2. cbn [self_url self_args trace]. now rewrite app_assoc.
    + now rewrite requests_of_app, R1, R2.
  - exists t1. split; [reflexivity | exact R1].
Qed.

Lemma quiet_disk_op (disk : list event -> event -> option exn) (ev : event) :
  (forall r, ev <> EvGet r) -> quiet (disk_op disk ev).
Proof.
  intros H w. unfold disk_op.
  destruct (disk (trace w) ev).
  - exists []. destruct w; split; reflexivity.
  - exists [ev]. split; [reflexivity|].
    destruct ev; try reflexivity. now contradiction (H r).
Qed.

Lemma quiet_write_chunks
  (disk : list event -> event -> option exn)
  (path : string) (chunks : list string) :
  quiet (write_chunks disk path chunks).
Proof.
  induction chunks as [|c chunks IH]; [apply quiet_ret|].
  cbn [write_chunks]. apply quiet_bind; [|intros _; exact IH].
  destruct (negb (String.eqb c "")); [|apply quiet_ret].
  apply quiet_disk_op. discriminate.
Qed.

Lemma quiet_write_stream
  (disk : list event -> event -> option exn)
  (path : string) (out : response) :
  quiet (write_stream disk path out).
Proof.
  unfold write_stream. apply quiet_bind; [apply quiet_write_chunks|].
  intros _. destruct (snd (iter_content out 1024));
    [apply quiet_raise | apply quiet_ret].
Qed.

Lemma quiet_with_open {A}
  (disk : list event -> event -> option exn) (path : string) (body : M A) :
  quiet body -> quiet (with_open disk path body).
Proof.
  intros Hb. unfold with_open.
  apply quiet_bind; [apply quiet_disk_op; discriminate|].
  intros _ w.
  destruct (Hb w) as [t1 [H1 R1]].
  destruct (body w) as [r w1]; cbn [snd] in H1; subst w1.
  destruct (quiet_disk_op disk (EvClose path) ltac:(discriminate)
              (mkWorld (self_url w) (self_args w) (t1 ++ trace w)%list))
    as [t2 [H2 R2]].
  exists (t2 ++ t1)%list. split.
  - destruct (disk_op disk (EvClose path)
                (mkWorld (self_url w) (self_args w) (t1 ++ trace w)%list))
      as [[u|e] w2]; cbn [snd] in H2 |- *; subst w2;
      cbn [self_url self_args trace]; now rewrite app_assoc.
  - now rewrite requests_of_app, R1, R2.
Qed.

Lemma quiet_raise_for_status (out : response) : quiet (raise_for_status out).
Proof.
  unfold raise_for_status. apply quiet_bind; [apply quiet_tick; discriminate|].
  intros _. destruct (http_failure (status_code out));
    [apply quiet_raise | apply quiet_ret].
Qed.

Lemma obis_write_disk_requests
  (network : list event -> request -> outcome response)
  (disk : list event -> event -> option exn)
  (url path : string) (ctype : pyval) (kwargs : dict) (w : world) :
  clashes ["url"; "stream"] kwargs = false ->
  requests_of
    (trace (snd (obis_write_disk network disk url path ctype kwargs w)))
  = (requests_of (trace w)
     ++ [mkRequest url ([("stream", PBool true)] ++ kwargs)])%list.
Proof.
  intros Hk.
  unfold obis_write_disk, requests_get, call_kw.
  change (clashes ("url" :: dict_keys [("stream", PBool true)]) kwargs)
    with (clashes ["url"; "stream"] kwargs).
  rewrite Hk. unfold bind at 1.
  destruct (network (trace w) _) as [out|e]; [|reflexivity].
  assert (Q : quiet (raise_for_status out ;;
                     with_open disk path (write_stream disk path out) ;;
                     ret path)).
  { apply quiet_bind; [apply quiet_raise_for_status|]. intros _.
    apply quiet_bind;
      [apply quiet_with_open, quiet_write_stream | intros _; apply quiet_ret]. }
  match goal with
  | |- context [snd (?m ?w0)] => destruct (Q w0) as [t [-> Hr]]
  end.
  cbn [trace]. rewrite requests_of_app, Hr, app_nil_r.
  unfold requests_of. cbn [flat_map app rev]. reflexivity.
Qed.

Lemma obis_GET_requests
  (network : list event -> request -> outcome response)
  (url : string) (args : dict) (ctype : string) (kwargs : dict) (w : world) :
  clashes ["url"; "params"; "headers"] kwargs = false ->
  requests_of (trace (snd (obis_GET network url args ctype kwargs w)))
  = (requests_of (trace w) ++ [obis_GET_request url args kwargs])%list.
Proof.
  intros Hk.
  destruct (obis_GET_world network url args ctype kwargs w Hk) as [t [-> Hr]].
  cbn [trace]. rewrite requests_of_app, Hr, app_nil_r.
  unfold requests_of. cbn [flat_map app rev]. reflexivity.
Qed.

(** ** [get_mapper_url] writes to the stored args *)

Lemma dict_set_keys (d : dict) (k : string) (v : pyval) :
  In k (dict_keys d) -> dict_keys (dict_set d k v) = dict_keys d.
Proof.
  unfold dict_keys.
  induction d as [|[k' v'] d IH]; [contradiction|].
  cbn [map fst dict_set]. intros H.
  destruct (String.eqb_spec k' k) as [->|Hne]; [reflexivity|].
  cbn [map fst]. rewrite IH; [reflexivity|].
  destruct H as [H|H]; [contradiction | exact H].
Qed.

Lemma dict_get_keys (d : dict) (k : string) (v : pyval) :
  dict_get d k = Some v -> In k (dict_keys d).
Proof.
  intros H. apply dict_get_In in H.
  unfold dict_keys. change k with (fst (k, v)). now apply in_map.
Qed.

Lemma dict_get_set_same (d : dict) (k : string) (v : pyval) :
  dict_get (dict_set d k v) k = Some v.
Proof.
  induction d as [|[k' v'] d IH]; cbn [dict_set dict_get].
  - now rewrite String.eqb_refl.
  - destruct (String.eqb k' k) eqn:E; cbn [dict_get]; rewrite E; auto.
Qed.

Lemma annotations_stores_args
  (network : list event -> request -> outcome response)
  (scientificname v : pyval) (kwargs : dict) (w : world) :
  handle_arrstr scientificname = Ok v ->
  self_args (snd (annotations network scientificname kwargs w))
  = Some [("scientificname", v)].
Proof.
  intros H. unfold annotations, bind, lift.
  cbn [set_url set_args get_url get_args self_url self_args trace].
  rewrite H.
  cbn [set_url set_args get_url get_args self_url self_args trace].
  now rewrite obis_GET_keeps_args.
Qed.

Lemma present_value_in_query (args : dict) (k : string) (v : pyval) :
  dict_wf args -> dict_get args k = Some v -> v <> PNone ->
  In (k, py_str v) (parse_qsl (urlencode (not_eq_none_items args))).
Proof.
  intros Hwf Hk Hv.
  rewrite not_eq_none_items_same, not_none_items_filter by exact Hwf.
  rewrite parse_qsl_urlencode.
  change (k, py_str v) with (decoded_item (k, v)). apply in_map.
  apply filter_In. split; [now apply dict_get_In|].
  destruct v; try reflexivity. now contradiction Hv.
Qed.

(** C10, as the code has it.  When the stored args hold a falsy
    "taxonid" and a truthy "scientificname", and the lookup answers with
    a first match that has an id other than None, [get_mapper_url]
    writes that id under "taxonid" into the stored args, and a later
    [get_search_url] serializes a query string with that taxonid
    parameter, which [search], [taxon] and [annotations] never store. *)
Theorem get_mapper_url_writes_taxonid
  (network : list event -> request -> outcome response)
  (w : world) (url : string) (args : dict) (t name : pyval)
  (res : response) (found first id : pyval) :
  self_url w = Some url -> self_args w = Some args -> dict_wf args ->
  dict_get args "taxonid" = Some t -> truthy t = false ->
  dict_get args "scientificname" = Some name -> truthy name = true ->
  network (trace w) (lookup_request name) = Ok res ->
  json res = Ok found ->
  getitem_int found 0 = Ok first -> getitem_str first "id" = Ok id ->
  id <> PNone ->
  self_args (snd (get_mapper_url network w))
    = Some (dict_set args "taxonid" id) /\
  fst (get_mapper_url network w)
    = Ok ("https://mapper.obis.org/" ++ "?"
          ++ urlencode (present_items (dict_set args "taxonid" id))) /\
  (exists q,
      fst (get_search_url (snd (get_mapper_url network w)))
        = Ok (url ++ "?" ++ q) /\
      In ("taxonid", py_str id) (parse_qsl q)) /\
  (forall scientificname s kwargs w0,
      handle_arrstr scientificname = Ok (PStr s) ->
      exists a, self_args (snd (search network scientificname kwargs w0)) = Some a
                /\ dict_get a "taxonid" = None) /\
  (forall i kwargs w0,
      exists a, self_args (snd (taxon network i kwargs w0)) = Some a
                /\ dict_get a "taxonid" = None) /\
  (forall scientificname v kwargs w0,
      handle_arrstr scientificname = Ok v ->
      exists a, self_args (snd (annotations network scientificname kwargs w0))
                = Some a
                /\ dict_get a "taxonid" = None).
Proof.
  intros Hu Ha Hwf Ht Htf Hn Hnt Hnet Hj Hfirst Hid Hne.
  assert (Hwf' : dict_wf (dict_set args "taxonid" id)).
  { unfold dict_wf. rewrite dict_set_keys; [exact Hwf|].
    now apply dict_get_keys with (v := t). }
  assert (Hrun : get_mapper_url network w
                 = (Ok ("https://mapper.obis.org/" ++ "?"
                        ++ urlencode (present_items (dict_set args "taxonid" id))),
                    mkWorld (Some url) (Some (dict_set args "taxonid" id))
                            (EvJson :: EvGet (lookup_request name) :: trace w))).
  { unfold get_mapper_url, bind, get_args, lift, dict_getitem, ret.
    rewrite Ha, Ht, Htf. cbn [negb]. rewrite Hn, Hnt, Ha, Hn.
    unfold lookup_taxon, requests_get, call_kw, bind.
    cbn [clashes dict_keys map existsb app].
    fold (lookup_request name). rewrite Hnet.
    unfold response_json, bind, tick, lift.
    cbn [self_url self_args trace]. rewrite Hj, Hfirst, Hid.
    unfold set_args. cbn [self_url self_args trace].
    rewrite Ha, Hu. cbn [self_url self_args trace].
    now rewrite not_eq_none_items_same, not_none_items_filter by exact Hwf'. }
  rewrite Hrun. cbn [fst snd self_args].
  split; [reflexivity|]. split; [reflexivity|]. split.
  - exists (urlencode (not_eq_none_items (dict_set args "taxonid" id))).
    split; [reflexivity|].
    apply present_value_in_query; [exact Hwf' | | exact Hne].
    apply dict_get_set_same.
  - split; [|split].
    + intros scientificname s kwargs w0 H.
      exists [("scientificname", PStr s)].
      split; [now apply search_stores_args | reflexivity].
    + intros i kwargs w0. exists [].
      split; [now apply taxon_stores_args | reflexivity].
    + intros scientificname v kwargs w0 H.
      exists [("scientificname", v)].
      split; [now apply annotations_stores_args | reflexivity].
Qed.

(** * Further properties *)

(** ** The file fetcher *)

Lemma obis_write_disk_after_request
  (network : list event -> request -> outcome response)
  (disk : list event -> event -> option exn)
  (url path : string) (ctype : pyval) (kwargs : dict)
  (w : world) (out : response) :
  clashes ["url"; "stream"] kwargs = false ->
  network (trace w) (obis_write_disk_request url kwargs) = Ok out ->
  obis_write_disk network disk url path ctype kwargs w
  = (raise_for_status out ;;
     with_open disk path (write_stream disk path out) ;;
     ret path)
      (mkWorld (self_url w) (self_args w)
               (EvGet (obis_write_disk_request url kwargs) :: trace w)).
Proof.
  intros Hk Hnet.
  unfold obis_write_disk, requests_get, call_kw.
  change (clashes ("url" :: dict_keys [("stream", PBool true)]) kwargs)
    with (clashes ["url"; "stream"] kwargs).
  rewrite Hk. unfold bind at 1.
  change (mkRequest url ([("stream", PBool true)] ++ kwargs)%list)
    with (obis_write_disk_request url kwargs).
  now rewrite Hnet.
Qed.

(** X1. When the status of the response is 4xx or 5xx,
    [obis_write_disk] raises the HTTP error straight after the request:
    the file is not opened and nothing is written. *)
Theorem obis_write_disk_http_error
  (network : list event -> request -> outcome response)
  (disk : list event -> event -> option exn)
  (url path : string) (ctype : pyval) (kwargs : dict)
  (w : world) (out : response) :
  clashes ["url"; "stream"] kwargs = false ->
  network (trace w) (obis_write_disk_request url kwargs) = Ok out ->
  http_failure (status_code out) = true ->
  fst (obis_write_disk network disk url path ctype kwargs w)
    = Raise (HTTPError (status_code out)) /\
  opened (trace (snd (obis_write_disk network disk url path ctype kwargs w)))
    = opened (trace w) /\
  (forall p,
      written p
        (trace (snd (obis_write_disk network disk url path ctype kwargs w)))
      = written p (trace w)).
Proof.
  intros Hk Hnet Hst.
  rewrite (obis_write_disk_after_request _ _ _ _ _ _ _ _ Hk Hnet).
  unfold raise_for_status, bind, tick, raise.
  cbn [self_url self_args trace]. rewrite Hst. cbn [fst snd trace].
  repeat split.
Qed.

Lemma write_chunks_run
  (disk : list event -> event -> option exn)
  (path : string) (chunks : list string) (w : world) :
  (forall t ev, disk t ev = None) ->
  write_chunks disk path chunks w
  = (Ok tt,
     mkWorld (self_url w) (self_args w)
             (rev (map (EvWrite path) (filter nonempty chunks)) ++ trace w)%list).
Proof.
  intros Hd.
  revert w. induction chunks as [|c chunks IH]; intros w.
  - destruct w; reflexivity.
  - cbn [write_chunks filter]. unfold bind. fold (nonempty c).
    destruct (nonempty c).
    + unfold disk_op. rewrite Hd, IH. cbn [self_url self_args trace map rev].
      now rewrite <- app_assoc.
    + unfold ret. apply IH.
Qed.

Lemma written_app (path : string) (t1 t2 : list event) :
  written path (t1 ++ t2) = (written path t2 ++ written path t1)%list.
Proof. unfold written. now rewrite flat_map_app, rev_app_distr. Qed.

Lemma written_rev_writes (path : string) (l : list string) :
  written path (rev (map (EvWrite path) l)) = l.
Proof.
  induction l as [|c l IH]; [reflexivity|].
  cbn [map rev]. rewrite written_app, IH.
  unfold written. cbn [flat_map]. rewrite String.eqb_refl. reflexivity.
Qed.

Lemma obis_write_disk_good_disk
  (network : list event -> request -> outcome response)
  (disk : list event -> event -> option exn)
  (url path : string) (ctype : pyval) (kwargs : dict)
  (w : world) (out : response) :
  clashes ["url"; "stream"] kwargs = false ->
  network (trace w) (obis_write_disk_request url kwargs) = Ok out ->
  http_failure (status_code out) = false ->
  (forall t ev, disk t ev = None) ->
  obis_write_disk network disk url path ctype kwargs w
  = (match snd (iter_content out 1024) with
     | None => Ok path
     | Some e => Raise e
     end,
     mkWorld (self_url w) (self_args w)
       (EvClose path
          :: rev (map (EvWrite path)
                    (filter nonempty (fst (iter_content out 1024))))
          ++ EvOpen path :: EvRaiseForStatus (status_code out)
          :: EvGet (obis_write_disk_request url kwargs) :: trace w)%list).
Proof.
  intros Hk Hnet Hst Hd.
  rewrite (obis_write_disk_after_request _ _ _ _ _ _ _ _ Hk Hnet).
  unfold raise_for_status, with_open, bind, tick, raise, ret.
  cbn [self_url self_args trace]. rewrite Hst.
  unfold disk_op at 1. cbn [self_url self_args trace]. rewrite Hd.
  unfold write_stream, bind.
  rewrite (write_chunks_run _ _ _ _ Hd). cbn [self_url self_args trace].
  destruct (snd (iter_content out 1024)) as [e|]; unfold raise, ret, disk_op;
    cbn [self_url self_args trace]; rewrite Hd; reflexivity.
Qed.

(** X2. When the status is no failure, [obis_write_disk] goes on to the
    disk.  If the file does not open, the exception of [open] comes out
    and nothing is written.  If the disk takes every operation, the file
    is opened, the chunks that arrive and are not empty are written in
    their order, and the file is closed; the result is the path when the
    stream ends, and the exception of the stream when it breaks, in
    which case what was written before stays on the disk.  The content
    type is never looked at and the body is never parsed. *)
Theorem obis_write_disk_writes_body
  (network : list event -> request -> outcome response)
  (disk : list event -> event -> option exn)
  (url path : string) (ctype : pyval) (kwargs : dict)
  (w : world) (out : response) :
  clashes ["url"; "stream"] kwargs = false ->
  network (trace w) (obis_write_disk_request url kwargs) = Ok out ->
  http_failure (status_code out) = false ->
  (forall e,
      disk (EvRaiseForStatus (status_code out)
              :: EvGet (obis_write_disk_request url kwargs) :: trace w)
           (EvOpen path) = Some e ->
      obis_write_disk network disk url path ctype kwargs w
      = (Raise e,
         mkWorld (self_url w) (self_args w)
           (EvRaiseForStatus (status_code out)
              :: EvGet (obis_write_disk_request url kwargs) :: trace w))) /\
  ((forall t ev, disk t ev = None) ->
      fst (obis_write_disk network disk url path ctype kwargs w)
        = match snd (iter_content out 1024) with
          | None => Ok path
          | Some e => Raise e
          end /\
      trace (snd (obis_write_disk network disk url path ctype kwargs w))
        = (EvClose path
             :: rev (map (EvWrite path)
                       (filter nonempty (fst (iter_content out 1024))))
             ++ EvOpen path :: EvRaiseForStatus (status_code out)
             :: EvGet (obis_write_disk_request url kwargs) :: trace w)%list /\
      written path
        (trace (snd (obis_write_disk network disk url path ctype kwargs w)))
        = (written path (trace w)
           ++ filter nonempty (fst (iter_content out 1024)))%list).
Proof.
  intros Hk Hnet Hst. split.
  - intros e He.
    rewrite (obis_write_disk_after_request _ _ _ _ _ _ _ _ Hk Hnet).
    unfold raise_for_status, with_open, bind, tick, raise, ret.
    cbn [self_url self_args trace]. rewrite Hst.
    unfold disk_op at 1. cbn [self_url self_args trace].
    now rewrite He.
  - intros Hd.
    rewrite (obis_write_disk_good_disk _ _ _ _ _ _ _ _ Hk Hnet Hst Hd).
    cbn [fst snd trace].
    split; [reflexivity|]. split; [reflexivity|].
    change (EvClose path
              :: rev (map (EvWrite path)
                        (filter nonempty (fst (iter_content out 1024))))
              ++ EvOpen path :: EvRaiseForStatus (status_code out)
              :: EvGet (obis_write_disk_request url kwargs) :: trace w)%list
      with ([EvClose path]
              ++ rev (map (EvWrite path)
                        (filter nonempty (fst (iter_content out 1024))))
              ++ [EvOpen path; EvRaiseForStatus (status_code out);
                  EvGet (obis_write_disk_request url kwargs)] ++ trace w)%list.
    rewrite !written_app, written_rev_writes.
    change (written path [EvClose path]) with (@nil string).
    change (written path [EvOpen path; EvRaiseForStatus (status_code out);
                          EvGet (obis_write_disk_request url kwargs)])
      with (@nil string).
    now rewrite !app_nil_r.
Qed.

(** ** The fetcher: what a result means, and what is never touched *)

(** X3. A response with a good status but no content-type header makes
    [obis_GET] raise KeyError for "content-type" after the status check:
    it is not the NoResultException of a mismatch, and the body is never
    parsed. *)
Theorem obis_GET_missing_header
  (network : list event -> request -> outcome response)
  (url : string) (args : dict) (ctype : string) (kwargs : dict)
  (w : world) (out : response) :
  clashes ["url"; "params"; "headers"] kwargs = false ->
  network (trace w) (obis_GET_request url args kwargs) = Ok out ->
  http_failure (status_code out) = false ->
  (forall k v, In (k, v) (headers out) -> str_lower k <> "content-type") ->
  obis_GET network url args ctype kwargs w
  = (Raise (KeyError "content-type"),
     mkWorld (self_url w) (self_args w)
       (EvRaiseForStatus (status_code out)
          :: EvGet (obis_GET_request url args kwargs) :: trace w)).
Proof.
  intros Hk Hnet Hst Hh.
  rewrite (obis_GET_after_request _ _ _ _ _ _ _ Hk Hnet).
  unfold raise_for_status, bind, tick, raise, ret, lift.
  cbn [self_url self_args trace]. rewrite Hst.
  now rewrite (headers_getitem_missing _ "content-type" Hh).
Qed.

(** X4. Whenever [obis_GET] returns a value, the keyword options did not
    clash, the transport gave a response whose status is no failure and
    whose content-type header equals the expected one, and the value is
    what [json()] of that response gives. *)
Theorem obis_GET_ok_inv
  (network : list event -> request -> outcome response)
  (url : string) (args : dict) (ctype : string) (kwargs : dict)
  (w : world) (v : pyval) :
  fst (obis_GET network url args ctype kwargs w) = Ok v ->
  clashes ["url"; "params"; "headers"] kwargs = false /\
  exists out,
    network (trace w) (obis_GET_request url args kwargs) = Ok out /\
    http_failure (status_code out) = false /\
    headers_getitem (headers out) "content-type" = Ok ctype /\
    json out = Ok v.
Proof.
  intros H.
  destruct (clashes ["url"; "params"; "headers"] kwargs) eqn:Hk.
  { unfold obis_GET, requests_get, call_kw, bind in H.
    change (clashes ("url" :: dict_keys
              [("params", PDict args); ("headers", PDict obis_headers)]) kwargs)
      with (clashes ["url"; "params"; "headers"] kwargs) in H.
    rewrite Hk in H. discriminate H. }
  split; [reflexivity|].
  destruct (network (trace w) (obis_GET_request url args kwargs)) as [out|e] eqn:Hnet.
  2: { unfold obis_GET, requests_get, call_kw, bind in H.
       change (clashes ("url" :: dict_keys
                 [("params", PDict args); ("headers", PDict obis_headers)]) kwargs)
         with (clashes ["url"; "params"; "headers"] kwargs) in H.
       rewrite Hk in H.
       change (mkRequest url
                 ([("params", PDict args); ("headers", PDict obis_headers)]
                  ++ kwargs)%list)
         with (obis_GET_request url args kwargs) in H.
       rewrite Hnet in H. discriminate H. }
  exists out. split; [reflexivity|].
  destruct (http_failure (status_code out)) eqn:Hst.
  { rewrite (obis_GET_failure _ _ _ ctype _ _ _ Hk Hnet Hst) in H.
    discriminate H. }
  split; [reflexivity|].
  destruct (headers_getitem (headers out) "content-type") as [x|e] eqn:Hx.
  2: { rewrite (obis_GET_after_request _ _ _ _ _ _ _ Hk Hnet) in H.
       unfold raise_for_status, bind, tick, raise, ret, lift in H.
       cbn [self_url self_args trace] in H. rewrite Hst, Hx in H.
       discriminate H. }
  destruct (String.eqb_spec x ctype) as [->|Hne].
  - split; [reflexivity|].
    now rewrite (obis_GET_match _ _ _ _ _ _ _ Hk Hnet Hst Hx) in H.
  - rewrite (obis_GET_mismatch _ _ _ _ _ _ _ _ Hk Hnet Hst Hx Hne) in H.
    discriminate H.
Qed.

Lemma obis_GET_keeps_url
  (network : list event -> request -> outcome response)
  (url : string) (args : dict) (ctype : string) (kwargs : dict) (w : world) :
  self_url (snd (call_kw ["url"; "args"; "ctype"] kwargs
                   (obis_GET network url args ctype kwargs) w))
  = self_url w.
Proof.
  unfold call_kw.
  destruct (clashes ["url"; "args"; "ctype"] kwargs); [reflexivity|].
  destruct (clashes ["url"; "params"; "headers"] kwargs) eqn:Hk.
  - unfold obis_GET, requests_get, call_kw, bind.
    change (clashes ("url" :: dict_keys
              [("params", PDict args); ("headers", PDict obis_headers)]) kwargs)
      with (clashes ["url"; "params"; "headers"] kwargs).
    now rewrite Hk.
  - destruct (obis_GET_world network url args ctype kwargs w Hk) as [t [-> _]].
    reflexivity.
Qed.

(** X5. Whatever the network answers, [obis_GET] with options that do
    not clash leaves the attributes of the instance alone and issues
    exactly one request: to the URL it was given, with the args as
    [params], the two fixed headers, and the options after them. *)
Theorem obis_GET_one_request
  (network : list event -> request -> outcome response)
  (url : string) (args : dict) (ctype : string) (kwargs : dict) (w : world) :
  clashes ["url"; "params"; "headers"] kwargs = false ->
  self_url (snd (obis_GET network url args ctype kwargs w)) = self_url w /\
  self_args (snd (obis_GET network url args ctype kwargs w)) = self_args w /\
  requests_of (trace (snd (obis_GET network url args ctype kwargs w)))
    = (requests_of (trace w)
       ++ [mkRequest url
             ([("params", PDict args);
               ("headers", PDict [("User-Agent", PStr user_agent);
                                  ("Connection", PStr "close")])]
              ++ kwargs)])%list.
Proof.
  intros Hk.
  rewrite (obis_GET_requests network url args ctype kwargs w Hk).
  destruct (obis_GET_world network url args ctype kwargs w Hk) as [t [-> _]].
  repeat split.
Qed.

Lemma clashes_In (names : list string) (kwargs : dict) (k : string) :
  In k names -> In k (dict_keys kwargs) -> clashes names kwargs = true.
Proof.
  intros Hn Hk. unfold clashes.
  apply existsb_exists. exists k. split; [exact Hk|].
  apply existsb_exists. exists k. split; [exact Hn | apply String.eqb_refl].
Qed.

(** X6. A keyword option named [params], [headers] or [url] cannot be
    passed through [obis_GET]: the call of [requests.get] raises
    TypeError, no request is issued and the world stays as it was. *)
Theorem obis_GET_keyword_clash
  (network : list event -> request -> outcome response)
  (url : string) (args : dict) (ctype : string) (kwargs : dict) (w : world)
  (k : string) :
  In k ["url"; "params"; "headers"] -> In k (dict_keys kwargs) ->
  obis_GET network url args ctype kwargs w = (Raise TypeError, w).
Proof.
  intros Hn Hk.
  unfold obis_GET, requests_get, call_kw, bind.
  change (clashes ("url" :: dict_keys
            [("params", PDict args); ("headers", PDict obis_headers)]) kwargs)
    with (clashes ["url"; "params"; "headers"] kwargs).
  now rewrite (clashes_In _ _ _ Hn Hk).
Qed.

(** ** The normalizer: what comes out *)

Lemma expect_strs_raises (l : list pyval) (e : exn) :
  expect_strs l = Raise e -> e = TypeError.
Proof.
  induction l as [|a l IH]; [discriminate|].
  destruct a; cbn [expect_strs]; try (now intros [= <-]).
  destruct (expect_strs l) as [r|e']; cbn [obind]; [discriminate|].
  intros [= <-]. now apply IH.
Qed.

Lemma str_join_raises (sep : string) (x : pyval) (e : exn) :
  str_join sep x = Raise e -> e = TypeError.
Proof.
  unfold str_join.
  destruct (py_iter x) as [items|e'] eqn:Hit; cbn [obind].
  - destruct (expect_strs items) as [r|e'] eqn:Hs; cbn [obind]; [discriminate|].
    intros [= <-]. now apply expect_strs_raises in Hs.
  - intros [= <-]. destruct x; cbn in Hit; congruence.
Qed.

Lemma handle_arrstr_cases_split (x : pyval) :
  x = PNone \/ (exists s, x = PStr s) \/
  handle_arrstr x = obind (str_join "," x) (fun s => Ok (PStr s)).
Proof.
  destruct x; eauto.
Qed.

Lemma handle_arrstr_result (x v : pyval) :
  handle_arrstr x = Ok v -> v = PNone \/ exists s, v = PStr s.
Proof.
  destruct (handle_arrstr_cases_split x) as [->|[[s ->]|H]].
  - intros [= <-]. now left.
  - intros [= <-]. right. now exists s.
  - rewrite H. destruct (str_join "," x); cbn [obind]; [|discriminate].
    intros [= <-]. right. eauto.
Qed.

Lemma handle_arrstr_raises (x : pyval) (e : exn) :
  handle_arrstr x = Raise e -> e = TypeError.
Proof.
  destruct (handle_arrstr_cases_split x) as [->|[[s ->]|H]];
    try discriminate.
  rewrite H. destruct (str_join "," x) eqn:Hj; cbn [obind]; [discriminate|].
  intros [= <-]. now apply str_join_raises in Hj.
Qed.

(** X7. What [handle_arrstr] returns is None or a str, it is a fixed
    point of [handle_arrstr], and the only exception it raises is
    TypeError. *)
Theorem handle_arrstr_idempotent (x : pyval) :
  (forall v, handle_arrstr x = Ok v ->
             (v = PNone \/ exists s, v = PStr s) /\ handle_arrstr v = Ok v) /\
  (forall e, handle_arrstr x = Raise e -> e = TypeError).
Proof.
  split.
  - intros v H. split; [now apply handle_arrstr_result in H|].
    apply handle_arrstr_result in H as [->|[s ->]]; reflexivity.
  - apply handle_arrstr_raises.
Qed.

Lemma chars_from_ascii (s : string) (cur : option string) :
  forallb is_ascii (list_ascii_of_string s) = true ->
  chars_from cur s
  = (flush cur ++ map (fun c => String c "") (list_ascii_of_string s))%list.
Proof.
  revert cur. induction s as [|c s IH]; intros cur H.
  - cbn. now rewrite app_nil_r.
  - cbn [list_ascii_of_string forallb] in H.
    apply andb_true_iff in H as [Hc Hs].
    cbn [chars_from list_ascii_of_string map].
    assert (E : is_continuation c = false).
    { unfold is_continuation, is_ascii in *.
      apply N.ltb_lt in Hc. apply andb_false_iff. left.
      apply N.leb_gt. exact Hc. }
    rewrite E, IH by exact Hs. reflexivity.
Qed.

(** X8. A str is not taken as one value by [handle_arrint]: it is
    iterated, and for ASCII text the result is its characters joined
    with commas. *)
Theorem handle_arrint_splits_str (s : string) :
  forallb is_ascii (list_ascii_of_string s) = true ->
  handle_arrint (PStr s)
  = Ok (PStr (String.concat ","
                (map (fun c => String c "") (list_ascii_of_string s)))).
Proof.
  intros H.
  rewrite handle_arrint_other by discriminate.
  cbn [py_iter obind]. unfold str_join. cbn [py_iter obind].
  rewrite str_items_expect. cbn [obind].
  unfold str_chars. rewrite chars_from_ascii by exact H.
  cbn [flush app]. rewrite !map_map. reflexivity.
Qed.

(** ** The facade: what a call leaves on the instance *)

Lemma get_search_url_run (w : world) (url : string) (args : dict) :
  self_url w = Some url -> self_args w = Some args ->
  get_search_url w = (Ok (url ++ "?" ++ urlencode (not_eq_none_items args)), w).
Proof.
  intros Hu Ha. unfold get_search_url, bind, get_url, get_args, ret.
  now rewrite Hu, Ha.
Qed.

Lemma search_run
  (network : list event -> request -> outcome response)
  (scientificname : pyval) (s : string) (kwargs : dict) (w : world) :
  handle_arrstr scientificname = Ok (PStr s) ->
  search network scientificname kwargs w
  = call_kw ["url"; "args"; "ctype"] kwargs
      (obis_GET network (obis_baseurl ++ "taxon/" ++ s)
         [("scientificname", PStr s)] json_ctype kwargs)
      (mkWorld (Some (obis_baseurl ++ "taxon/" ++ s))
               (Some [("scientificname", PStr s)]) (trace w)).
Proof.
  intros H. unfold search, bind, lift. rewrite H. reflexivity.
Qed.

Lemma taxon_run
  (network : list event -> request -> outcome response)
  (id : pyval) (kwargs : dict) (w : world) :
  taxon network id kwargs w
  = call_kw ["url"; "args"; "ctype"] kwargs
      (obis_GET network (obis_baseurl ++ "taxon/" ++ py_str id) []
         json_ctype kwargs)
      (mkWorld (Some (obis_baseurl ++ "taxon/" ++ py_str id)) (Some [])
               (trace w)).
Proof. reflexivity. Qed.

Lemma annotations_run
  (network : list event -> request -> outcome response)
  (scientificname v : pyval) (kwargs : dict) (w : world) :
  handle_arrstr scientificname = Ok v ->
  annotations network scientificname kwargs w
  = call_kw ["url"; "args"; "ctype"] kwargs
      (obis_GET network annotations_url [("scientificname", v)]
         json_ctype kwargs)
      (mkWorld (Some annotations_url) (Some [("scientificname", v)]) (trace w)).
Proof.
  intros H. unfold annotations, bind, lift.
  cbn [set_url set_args get_url get_args self_url self_args trace].
  rewrite H. reflexivity.
Qed.

(** X9. [search] with anything that does not normalize to a str (no
    name, an int, a list with an item that is not a str) raises
    TypeError before it stores anything or issues a request. *)
Theorem search_not_str
  (network : list event -> request -> outcome response)
  (scientificname : pyval) (kwargs : dict) (w : world) :
  (forall s, handle_arrstr scientificname <> Ok (PStr s)) ->
  search network scientificname kwargs w = (Raise TypeError, w).
Proof.
  intros H. unfold search, bind, lift.
  destruct (handle_arrstr scientificname) as [v|e] eqn:E.
  - destruct (handle_arrstr_result _ _ E) as [->|[s ->]].
    + reflexivity.
    + now contradiction (H s).
  - now rewrite (handle_arrstr_raises _ _ E).
Qed.

(** X10. Once the name normalizes to a str, [search] stores the URL and
    the args before it fetches: whatever the network answers and
    whatever the options are, [get_search_url] afterwards gives
    base + taxon/ + name + ?scientificname= + the percent-encoded name. *)
Theorem search_stores_before_fetch
  (network : list event -> request -> outcome response)
  (scientificname : pyval) (s : string) (kwargs : dict) (w : world) :
  handle_arrstr scientificname = Ok (PStr s) ->
  self_url (snd (search network scientificname kwargs w))
    = Some (obis_baseurl ++ "taxon/" ++ s) /\
  self_args (snd (search network scientificname kwargs w))
    = Some [("scientificname", PStr s)] /\
  fst (get_search_url (snd (search network scientificname kwargs w)))
    = Ok (obis_baseurl ++ "taxon/" ++ s ++ "?scientificname=" ++ quote_plus s).
Proof.
  intros H. rewrite (search_run _ _ _ _ _ H).
  assert (Hu := obis_GET_keeps_url network (obis_baseurl ++ "taxon/" ++ s)
                  [("scientificname", PStr s)] json_ctype kwargs
                  (mkWorld (Some (obis_baseurl ++ "taxon/" ++ s))
                           (Some [("scientificname", PStr s)]) (trace w))).
  assert (Ha := obis_GET_keeps_args network (obis_baseurl ++ "taxon/" ++ s)
                  [("scientificname", PStr s)] json_ctype kwargs
                  (mkWorld (Some (obis_baseurl ++ "taxon/" ++ s))
                           (Some [("scientificname", PStr s)]) (trace w))).
  cbn [self_url self_args] in Hu, Ha.
  split; [exact Hu|]. split; [exact Ha|].
  rewrite (get_search_url_run _ _ _ Hu Ha). reflexivity.
Qed.

Lemma list_ascii_app (a b : string) :
  list_ascii_of_string (a ++ b)
  = (list_ascii_of_string a ++ list_ascii_of_string b)%list.
Proof. induction a as [|c a IH]; cbn; [reflexivity | now rewrite IH]. Qed.

Lemma concat_nil_app (l1 l2 : list string) :
  String.concat "" (l1 ++ l2) = String.concat "" l1 ++ String.concat "" l2.
Proof.
  induction l1 as [|x l1 IH]; [reflexivity|].
  cbn [app]. now rewrite !concat_nil_cons, IH, append_assoc.
Qed.

Lemma quote_plus_app (a b : string) :
  quote_plus (a ++ b) = quote_plus a ++ quote_plus b.
Proof.
  now rewrite !quote_plus_bytes, list_ascii_app, map_app, concat_nil_app.
Qed.

Lemma quote_plus_joined (names : list string) :
  quote_plus (String.concat "," names)
  = String.concat "%2C" (map quote_plus names).
Proof.
  induction names as [|x [|y l] IH]; try reflexivity.
  change (String.concat "," (x :: y :: l))
    with (x ++ "," ++ String.concat "," (y :: l)).
  change (String.concat "%2C" (map quote_plus (x :: y :: l)))
    with (quote_plus x ++ "%2C"
          ++ String.concat "%2C" (map quote_plus (y :: l))).
  now rewrite !quote_plus_app, IH.
Qed.

(** X11. [search] with a list of names puts the names joined with commas
    into the path as they are, and into the query with every name
    percent-encoded and every comma as %2C. *)
Theorem search_list_of_names
  (network : list event -> request -> outcome response)
  (names : list string) (kwargs : dict) (w : world) :
  fst (get_search_url (snd (search network (PList (map PStr names)) kwargs w)))
  = Ok (obis_baseurl ++ "taxon/" ++ String.concat "," names
        ++ "?scientificname=" ++ String.concat "%2C" (map quote_plus names)).
Proof.
  assert (H : handle_arrstr (PList (map PStr names))
              = Ok (PStr (String.concat "," names))).
  { rewrite handle_arrstr_other by discriminate.
    unfold str_join. cbn [py_iter obind]. now rewrite expect_strs_map. }
  rewrite (search_run _ _ _ _ _ H).
  assert (Hu := obis_GET_keeps_url network
                  (obis_baseurl ++ "taxon/" ++ String.concat "," names)
                  [("scientificname", PStr (String.concat "," names))]
                  json_ctype kwargs
                  (mkWorld (Some (obis_baseurl ++ "taxon/"
                                  ++ String.concat "," names))
                           (Some [("scientificname",
                                   PStr (String.concat "," names))]) (trace w))).
  assert (Ha := obis_GET_keeps_args network
                  (obis_baseurl ++ "taxon/" ++ String.concat "," names)
                  [("scientificname", PStr (String.concat "," names))]
                  json_ctype kwargs
                  (mkWorld (Some (obis_baseurl ++ "taxon/"
                                  ++ String.concat "," names))
                           (Some [("scientificname",
                                   PStr (String.concat "," names))]) (trace w))).
  cbn [self_url self_args] in Hu, Ha.
  rewrite (get_search_url_run _ _ _ Hu Ha), <- quote_plus_joined.
  reflexivity.
Qed.

(** X12. [taxon] stores base + taxon/ + str(id) and empty args whatever
    the id is and whatever the fetch does, so [get_search_url]
    afterwards gives that URL with a question mark and nothing after
    it. *)
Theorem taxon_stores_url
  (network : list event -> request -> outcome response)
  (id : pyval) (kwargs : dict) (w : world) :
  self_url (snd (taxon network id kwargs w))
    = Some (obis_baseurl ++ "taxon/" ++ py_str id) /\
  self_args (snd (taxon network id kwargs w)) = Some [] /\
  fst (get_search_url (snd (taxon network id kwargs w)))
    = Ok (obis_baseurl ++ "taxon/" ++ py_str id ++ "?").
Proof.
  rewrite taxon_run.
  assert (Hu := obis_GET_keeps_url network
                  (obis_baseurl ++ "taxon/" ++ py_str id) [] json_ctype kwargs
                  (mkWorld (Some (obis_baseurl ++ "taxon/" ++ py_str id))
                           (Some []) (trace w))).
  assert (Ha := obis_GET_keeps_args network
                  (obis_baseurl ++ "taxon/" ++ py_str id) [] json_ctype kwargs
                  (mkWorld (Some (obis_baseurl ++ "taxon/" ++ py_str id))
                           (Some []) (trace w))).
  cbn [self_url self_args] in Hu, Ha.
  split; [exact Hu|]. split; [exact Ha|].
  rewrite (get_search_url_run _ _ _ Hu Ha). cbn [fst].
  cbn [not_eq_none_items fold_left urlencode map String.concat].
  now rewrite !append_assoc.
Qed.

(** X13. [annotations] assigns the URL before it normalizes the name:
    when the normalizer raises, the call raises the same, no request is
    issued, the stored URL is already the annotations URL and the stored
    args are still those of the call before. *)
Theorem annotations_bad_name
  (network : list event -> request -> outcome response)
  (scientificname : pyval) (e : exn) (kwargs : dict) (w : world) :
  handle_arrstr scientificname = Raise e ->
  annotations network scientificname kwargs w
  = (Raise e, mkWorld (Some annotations_url) (self_args w) (trace w)).
Proof.
  intros H. unfold annotations, bind, lift.
  cbn [set_url set_args get_url get_args self_url self_args trace].
  now rewrite H.
Qed.

(** X14. After [annotations] with a name that normalizes,
    [get_search_url] gives the annotations URL and a question mark,
    followed by scientificname= and the percent-encoded name when there
    is a name, and by nothing when the name is None. *)
Theorem annotations_query
  (network : list event -> request -> outcome response)
  (scientificname v : pyval) (kwargs : dict) (w : world) :
  handle_arrstr scientificname = Ok v ->
  fst (get_search_url (snd (annotations network scientificname kwargs w)))
  = Ok (annotations_url ++ "?"
        ++ match v with
           | PNone => ""
           | _ => "scientificname=" ++ quote_plus (py_str v)
           end).
Proof.
  intros H. rewrite (annotations_run _ _ _ _ _ H).
  assert (Hu := obis_GET_keeps_url network annotations_url
                  [("scientificname", v)] json_ctype kwargs
                  (mkWorld (Some annotations_url)
                           (Some [("scientificname", v)]) (trace w))).
  assert (Ha := obis_GET_keeps_args network annotations_url
                  [("scientificname", v)] json_ctype kwargs
                  (mkWorld (Some annotations_url)
                           (Some [("scientificname", v)]) (trace w))).
  cbn [self_url self_args] in Hu, Ha.
  rewrite (get_search_url_run _ _ _ Hu Ha). cbn [fst].
  destruct v; reflexivity.
Qed.

Lemma call_obis_GET_requests
  (network : list event -> request -> outcome response)
  (url : string) (args : dict) (kwargs : dict) (w : world) :
  clashes ["url"; "args"; "ctype"; "params"; "headers"] kwargs = false ->
  requests_of
    (trace (snd (call_kw ["url"; "args"; "ctype"] kwargs
                   (obis_GET network url args json_ctype kwargs) w)))
  = (requests_of (trace w) ++ [obis_GET_request url args kwargs])%list.
Proof.
  intros Hk. unfold call_kw.
  assert (K1 : clashes ["url"; "args"; "ctype"] kwargs = false).
  { apply (clashes_incl ["url"; "args"; "ctype"; "params"; "headers"]);
      [|exact Hk].
    intros n Hn. cbn in Hn |- *. intuition. }
  assert (K2 : clashes ["url"; "params"; "headers"] kwargs = false).
  { apply (clashes_incl ["url"; "args"; "ctype"; "params"; "headers"]);
      [|exact Hk].
    intros n Hn. cbn in Hn |- *. intuition. }
  rewrite K1. now apply obis_GET_requests.
Qed.

(** X15. The request that [search], [taxon] and [annotations] issue is
    the stored pair: its URL is the stored URL, unencoded, and its
    [params] are the stored args, so [get_search_url] afterwards
    serializes what was asked. *)
Theorem facade_request_is_stored_state
  (network : list event -> request -> outcome response)
  (kwargs : dict) (w : world) :
  clashes ["url"; "args"; "ctype"; "params"; "headers"] kwargs = false ->
  (forall scientificname s,
      handle_arrstr scientificname = Ok (PStr s) ->
      exists url args,
        self_url (snd (search network scientificname kwargs w)) = Some url /\
        self_args (snd (search network scientificname kwargs w)) = Some args /\
        requests_of (trace (snd (search network scientificname kwargs w)))
          = (requests_of (trace w) ++ [obis_GET_request url args kwargs])%list) /\
  (forall id,
      exists url args,
        self_url (snd (taxon network id kwargs w)) = Some url /\
        self_args (snd (taxon network id kwargs w)) = Some args /\
        requests_of (trace (snd (taxon network id kwargs w)))
          = (requests_of (trace w) ++ [obis_GET_request url args kwargs])%list) /\
  (forall scientificname v,
      handle_arrstr scientificname = Ok v ->
      exists url args,
        self_url (snd (annotations network scientificname kwargs w)) = Some url /\
        self_args (snd (annotations network scientificname kwargs w))
          = Some args /\
        requests_of (trace (snd (annotations network scientificname kwargs w)))
          = (requests_of (trace w) ++ [obis_GET_request url args kwargs])%list).
Proof.
  intros Hk. split; [|split].
  - intros scientificname s H.
    exists (obis_baseurl ++ "taxon/" ++ s), [("scientificname", PStr s)].
    rewrite (search_run _ _ _ _ _ H).
    rewrite obis_GET_keeps_url, obis_GET_keeps_args.
    rewrite (call_obis_GET_requests _ _ _ _ _ Hk).
    repeat split.
  - intros id.
    exists (obis_baseurl ++ "taxon/" ++ py_str id), [].
    rewrite taxon_run.
    rewrite obis_GET_keeps_url, obis_GET_keeps_args.
    rewrite (call_obis_GET_requests _ _ _ _ _ Hk).
    repeat split.
  - intros scientificname v H.
    exists annotations_url, [("scientificname", v)].
    rewrite (annotations_run _ _ _ _ _ H).
    rewrite obis_GET_keeps_url, obis_GET_keeps_args.
    rewrite (call_obis_GET_requests _ _ _ _ _ Hk).
    repeat split.
Qed.

(** X16. An option named [url], [args] or [ctype] makes the call of
    [obis_GET] inside [search] raise TypeError: no request is issued,
    but the URL and the args of this call are already stored. *)
Theorem search_keyword_clash
  (network : list event -> request -> outcome response)
  (scientificname : pyval) (s : string) (kwargs : dict) (w : world)
  (k : string) :
  handle_arrstr scientificname = Ok (PStr s) ->
  In k ["url"; "args"; "ctype"] -> In k (dict_keys kwargs) ->
  search network scientificname kwargs w
  = (Raise TypeError,
     mkWorld (Some (obis_baseurl ++ "taxon/" ++ s))
             (Some [("scientificname", PStr s)]) (trace w)).
Proof.
  intros H Hn Hk. rewrite (search_run _ _ _ _ _ H).
  unfold call_kw. now rewrite (clashes_In _ _ _ Hn Hk).
Qed.

(** ** The lookup and the mapper URL *)

(** X17. [lookup_taxon] validates nothing: whatever the status and the
    headers of the response, it goes straight from the request to
    [json()] and returns what that gives, and the request carries no
    params, no headers and no options. *)
Theorem lookup_taxon_unvalidated
  (network : list event -> request -> outcome response)
  (scientificname : pyval) (w : world) (res : response) :
  network (trace w)
    (mkRequest ("https://api.obis.org/v3/taxon/complete/"
                ++ py_str scientificname) []) = Ok res ->
  lookup_taxon network scientificname w
  = (json res,
     mkWorld (self_url w) (self_args w)
       (EvJson
          :: EvGet (mkRequest ("https://api.obis.org/v3/taxon/complete/"
                               ++ py_str scientificname) [])
          :: trace w)).
Proof.
  intros Hnet.
  unfold lookup_taxon, requests_get, call_kw, bind.
  cbn [clashes dict_keys map existsb app]. rewrite Hnet.
  unfold response_json, bind, tick, lift. cbn [self_url self_args trace].
  reflexivity.
Qed.

(** X18. With a truthy taxonid in the stored args, [get_mapper_url]
    looks nothing up and changes nothing: it serializes the stored args
    that are not None after https://mapper.obis.org/?, and it does not
    need a stored URL. *)
Theorem get_mapper_url_known_taxonid
  (network : list event -> request -> outcome response)
  (w : world) (args : dict) (t : pyval) :
  self_args w = Some args -> dict_wf args ->
  dict_get args "taxonid" = Some t -> truthy t = true ->
  get_mapper_url network w
  = (Ok ("https://mapper.obis.org/?" ++ urlencode (present_items args)), w).
Proof.
  intros Ha Hwf Ht Htt.
  unfold get_mapper_url, bind, get_args, lift, dict_getitem, ret.
  rewrite Ha, Ht, Htt. cbn [negb]. rewrite Ha.
  now rewrite not_eq_none_items_same, not_none_items_filter by exact Hwf.
Qed.

(** X19. With a falsy taxonid and no "scientificname" key in the stored
    args, [get_mapper_url] raises KeyError for "scientificname" and
    changes nothing. *)
Theorem get_mapper_url_missing_name
  (network : list event -> request -> outcome response)
  (w : world) (args : dict) (t : pyval) :
  self_args w = Some args ->
  dict_get args "taxonid" = Some t -> truthy t = false ->
  dict_get args "scientificname" = None ->
  get_mapper_url network w = (Raise (KeyError "scientificname"), w).
Proof.
  intros Ha Ht Htf Hn.
  unfold get_mapper_url, bind, get_args, lift, dict_getitem, ret.
  now rewrite Ha, Ht, Htf, Hn.
Qed.

(** X20. When the lookup finds no match (an empty list),
    [get_mapper_url] raises IndexError: the lookup request has been
    issued, and the stored args are as they were. *)
Theorem get_mapper_url_no_match
  (network : list event -> request -> outcome response)
  (w : world) (args : dict) (t name : pyval) (res : response) :
  self_args w = Some args ->
  dict_get args "taxonid" = Some t -> truthy t = false ->
  dict_get args "scientificname" = Some name -> truthy name = true ->
  network (trace w) (lookup_request name) = Ok res ->
  json res = Ok (PList []) ->
  get_mapper_url network w
  = (Raise IndexError,
     mkWorld (self_url w) (Some args)
             (EvJson :: EvGet (lookup_request name) :: trace w)).
Proof.
  intros Ha Ht Htf Hn Hnt Hnet Hj.
  unfold get_mapper_url, bind, get_args, lift, dict_getitem, ret.
  rewrite Ha, Ht, Htf. cbn [negb]. rewrite Hn, Hnt, Ha, Hn.
  unfold lookup_taxon, requests_get, call_kw, bind.
  cbn [clashes dict_keys map existsb app].
  fold (lookup_request name). rewrite Hnet.
  unfold response_json, bind, tick, lift.
  cbn [self_url self_args trace]. rewrite Hj, Ha. reflexivity.
Qed.

(** ** The URL builder: edges and shape *)

Lemma not_none_items_all_none (args acc : dict) :
  (forall k v, In (k, v) args -> v = PNone) ->
  fold_left
    (fun a kv => if is_none (snd kv) then a else dict_set a (fst kv) (snd kv))
    args acc = acc.
Proof.
  revert acc. induction args as [|[k v] args IH]; intros acc H; [reflexivity|].
  cbn [fold_left fst snd].
  rewrite (H k v) by now left. cbn [is_none].
  apply IH. intros k' v' Hin. apply (H k' v'). now right.
Qed.

(** X21. When no argument has a value that is not None, and so for no
    arguments at all, [build_api_url] gives the base URL followed by a
    bare question mark. *)
Theorem build_api_url_all_none (url : string) (args : dict) :
  (forall k v, In (k, v) args -> v = PNone) ->
  build_api_url url args = url ++ "?".
Proof.
  intros H. unfold build_api_url, not_none_items.
  now rewrite not_none_items_all_none.
Qed.

Lemma forallb_query_app (a b : string) :
  forallb query_byte (list_ascii_of_string (a ++ b))
  = forallb query_byte (list_ascii_of_string a)
    && forallb query_byte (list_ascii_of_string b).
Proof. now rewrite list_ascii_app, forallb_app. Qed.

Lemma plus_byte_query (c : ascii) :
  forallb query_byte (list_ascii_of_string (plus_byte c)) = true.
Proof. each_byte c; reflexivity. Qed.

Lemma quote_plus_query (s : string) :
  forallb query_byte (list_ascii_of_string (quote_plus s)) = true.
Proof.
  induction s as [|c s IH]; [reflexivity|].
  now rewrite quote_plus_cons, forallb_query_app, plus_byte_query, IH.
Qed.

Lemma encode_item_query (kv : string * pyval) :
  forallb query_byte (list_ascii_of_string (encode_item kv)) = true.
Proof.
  unfold encode_item.
  now rewrite !forallb_query_app, !quote_plus_query.
Qed.

Lemma urlencode_query (d : dict) :
  forallb query_byte (list_ascii_of_string (urlencode d)) = true.
Proof.
  rewrite urlencode_items.
  induction d as [|kv [|kv' d] IH]; [reflexivity| |].
  - apply encode_item_query.
  - change (String.concat "&" (map encode_item (kv :: kv' :: d)))
      with (encode_item kv ++ "&"
            ++ String.concat "&" (map encode_item (kv' :: d))).
    now rewrite !forallb_query_app, encode_item_query, IH.
Qed.

(** X22. Whatever the names and the values are, the query string that
    [build_api_url] puts after the question mark is made only of
    letters, digits, [_.-~], the percent and plus signs, and the
    separators [=] and [&]: no space, no quote, no [#], no [?], no byte
    above 127. *)
Theorem build_api_url_query_bytes (url : string) (args : dict) :
  exists q,
    build_api_url url args = url ++ "?" ++ q /\
    forallb query_byte (list_ascii_of_string q) = true.
Proof.
  exists (urlencode (not_none_items args)).
  split; [reflexivity | apply urlencode_query].
Qed.

Lemma append_inv_head (a x y : string) : a ++ x = a ++ y -> x = y.
Proof.
  induction a as [|c a IH]; cbn [append]; [trivial|].
  intros [= H]. now apply IH.
Qed.

(** X23. [build_api_url] loses nothing: two dicts that give the same URL
    on the same base have the same names with the same [str] of the
    values, in the same order, among their items that are not None. *)
Theorem build_api_url_injective (url : string) (args1 args2 : dict) :
  dict_wf args1 -> dict_wf args2 ->
  build_api_url url args1 = build_api_url url args2 ->
  map decoded_item (present_items args1) = map decoded_item (present_items args2).
Proof.
  intros H1 H2 H. unfold build_api_url in H.
  apply append_inv_head in H. cbn [append] in H. injection H as H.
  rewrite !not_none_items_filter in H by assumption.
  rewrite <- !parse_qsl_urlencode. now rewrite H.
Qed.

(** ** Keyword options *)

Lemma clashes_app (n1 n2 : list string) (kwargs : dict) :
  clashes (n1 ++ n2) kwargs = clashes n1 kwargs || clashes n2 kwargs.
Proof.
  unfold clashes. induction (dict_keys kwargs) as [|k l IH]; [reflexivity|].
  cbn [existsb]. rewrite IH, existsb_app.
  destruct (existsb (String.eqb k) n1), (existsb (String.eqb k) n2);
    cbn [orb]; try reflexivity;
    repeat match goal with
           | |- context [existsb ?f l] => destruct (existsb f l)
           end; reflexivity.
Qed.

Lemma clashes_true_incl (names names' : list string) (kwargs : dict) :
  incl names names' ->
  clashes names kwargs = true -> clashes names' kwargs = true.
Proof.
  intros Hincl H. destruct (clashes names' kwargs) eqn:E; [reflexivity|].
  rewrite (clashes_incl _ _ _ Hincl E) in H. discriminate H.
Qed.

Lemma obis_GET_clash
  (network : list event -> request -> outcome response)
  (url : string) (args : dict) (ctype : string) (kwargs : dict) (w : world) :
  clashes ["url"; "params"; "headers"] kwargs = true ->
  obis_GET network url args ctype kwargs w = (Raise TypeError, w).
Proof.
  intros Hk. unfold obis_GET, requests_get, call_kw, bind.
  change (clashes ("url" :: dict_keys
            [("params", PDict args); ("headers", PDict obis_headers)]) kwargs)
    with (clashes ["url"; "params"; "headers"] kwargs).
  now rewrite Hk.
Qed.

Lemma call_obis_GET_clash
  (network : list event -> request -> outcome response)
  (url : string) (args : dict) (ctype : string) (kwargs : dict) (w : world) :
  clashes obis_GET_names kwargs = true ->
  call_kw ["url"; "args"; "ctype"] kwargs
    (obis_GET network url args ctype kwargs) w
  = (Raise TypeError, w).
Proof.
  intros Hk. unfold call_kw.
  destruct (clashes ["url"; "args"; "ctype"] kwargs) eqn:E; [reflexivity|].
  apply obis_GET_clash.
  change obis_GET_names
    with (["url"; "args"; "ctype"] ++ ["params"; "headers"])%list in Hk.
  rewrite clashes_app, E in Hk. cbn [orb] in Hk.
  apply (clashes_true_incl ["params"; "headers"]); [|exact Hk].
  intros n Hn. cbn in Hn |- *. intuition.
Qed.

Lemma call_obis_GET_no_clash
  (network : list event -> request -> outcome response)
  (url : string) (args : dict) (ctype : string) (kwargs : dict) (w : world) :
  clashes obis_GET_names kwargs = false ->
  requests_of
    (trace (snd (call_kw ["url"; "args"; "ctype"] kwargs
                   (obis_GET network url args ctype kwargs) w)))
  = (requests_of (trace w) ++ [obis_GET_request url args kwargs])%list.
Proof.
  intros Hk. unfold call_kw.
  assert (K1 : clashes ["url"; "args"; "ctype"] kwargs = false).
  { apply (clashes_incl obis_GET_names); [|exact Hk].
    intros n Hn. cbn in Hn |- *. intuition. }
  assert (K2 : clashes ["url"; "params"; "headers"] kwargs = false).
  { apply (clashes_incl obis_GET_names); [|exact Hk].
    intros n Hn. cbn in Hn |- *. intuition. }
  rewrite K1. now apply obis_GET_requests.
Qed.

Lemma search_no_str
  (network : list event -> request -> outcome response)
  (scientificname : pyval) (kwargs : dict) (w : world) :
  (forall s, handle_arrstr scientificname <> Ok (PStr s)) ->
  search network scientificname kwargs w = (Raise TypeError, w).
Proof.
  intros H. unfold search, bind, lift.
  destruct (handle_arrstr scientificname) as [v|e] eqn:E.
  - destruct (handle_arrstr_result _ _ E) as [->|[s ->]].
    + reflexivity.
    + now contradiction (H s).
  - now rewrite (handle_arrstr_raises _ _ E).
Qed.

Lemma annotations_no_name
  (network : list event -> request -> outcome response)
  (scientificname : pyval) (e : exn) (kwargs : dict) (w : world) :
  handle_arrstr scientificname = Raise e ->
  annotations network scientificname kwargs w
  = (Raise TypeError, mkWorld (Some annotations_url) (self_args w) (trace w)).
Proof.
  intros H. unfold annotations, bind, lift.
  cbn [set_url set_args get_url get_args self_url self_args trace].
  rewrite H. now rewrite (handle_arrstr_raises _ _ H).
Qed.

(** C9, as the code has it.  A fetch function whose signature takes
    keyword options ([obis_GET], [obis_write_disk], [search], [taxon],
    [annotations]) hands them on to its one call of [requests.get] as
    they came in, after its own keywords, when none is named like a
    name the call binds on its way.  An option with such a name raises
    TypeError and no request is issued; so does a name that does not
    normalize.  [lookup_taxon] takes no option at all: one raises
    TypeError before any request, and its own request carries none. *)
Theorem fetchers_forward_options
  (network : list event -> request -> outcome response)
  (disk : list event -> event -> option exn) :
  (forall f kwargs w,
      takes_options f = true -> reaches_transport f ->
      clashes (bound_names f) kwargs = false ->
      forwards_verbatim network disk f kwargs w) /\
  (forall f kwargs w,
      takes_options f = true ->
      clashes (bound_names f) kwargs = true ->
      fst (call_fetcher network disk f kwargs w) = Raise TypeError /\
      requests_of (trace (snd (call_fetcher network disk f kwargs w)))
        = requests_of (trace w)) /\
  (forall f kwargs w,
      takes_options f = true -> ~ reaches_transport f ->
      fst (call_fetcher network disk f kwargs w) = Raise TypeError /\
      requests_of (trace (snd (call_fetcher network disk f kwargs w)))
        = requests_of (trace w)) /\
  (forall scientificname k v kwargs w,
      call_fetcher network disk (Flookup_taxon scientificname)
        ((k, v) :: kwargs) w
      = (Raise TypeError, w)) /\
  (forall scientificname w,
      requests_of
        (trace (snd (call_fetcher network disk (Flookup_taxon scientificname)
                       [] w)))
      = (requests_of (trace w)
         ++ [mkRequest ("https://api.obis.org/v3/taxon/complete/"
                        ++ py_str scientificname) []])%list).
Proof.
  split; [|split; [|split; [|split]]].
  - intros f kwargs w Ht Hr Hk. unfold forwards_verbatim.
    destruct f as [url args ctype|url path ctype|name|id|name|name];
      try discriminate Ht; cbn [call_fetcher bound_names] in *.
    + exists (obis_GET_request url args kwargs),
             [("params", PDict args); ("headers", PDict obis_headers)].
      split; [now apply call_obis_GET_no_clash | reflexivity].
    + assert (K3 : clashes ["url"; "path"; "ctype"] kwargs = false).
      { apply (clashes_incl ["url"; "path"; "ctype"; "stream"]); [|exact Hk].
        intros n Hn. cbn in Hn |- *. intuition. }
      assert (K4 : clashes ["url"; "stream"] kwargs = false).
      { apply (clashes_incl ["url"; "path"; "ctype"; "stream"]); [|exact Hk].
        intros n Hn. cbn in Hn |- *. intuition. }
      unfold call_kw. rewrite K3.
      exists (mkRequest url ([("stream", PBool true)] ++ kwargs)%list),
             [("stream", PBool true)].
      split; [|reflexivity].
      unfold bind at 1.
      pose proof (obis_write_disk_requests network disk url path ctype kwargs
                    w K4) as H.
      destruct (obis_write_disk network disk url path ctype kwargs w)
        as [[p|e] w1]; exact H.
    + rewrite clashes_app in Hk. apply orb_false_iff in Hk as [K5 K].
      unfold call_kw at 1. rewrite K5. destruct Hr as [s Hs].
      rewrite (search_run _ _ _ _ _ Hs).
      rewrite call_obis_GET_no_clash by exact K. cbn [trace].
      eexists _, [("params", PDict [("scientificname", PStr s)]);
                  ("headers", PDict obis_headers)].
      split; reflexivity.
    + rewrite clashes_app in Hk. apply orb_false_iff in Hk as [K5 K].
      unfold call_kw at 1. rewrite K5.
      rewrite taxon_run.
      rewrite call_obis_GET_no_clash by exact K. cbn [trace].
      eexists _, [("params", PDict []); ("headers", PDict obis_headers)].
      split; reflexivity.
    + rewrite clashes_app in Hk. apply orb_false_iff in Hk as [K5 K].
      unfold call_kw at 1. rewrite K5. destruct Hr as [v Hv].
      rewrite (annotations_run _ _ _ _ _ Hv).
      rewrite call_obis_GET_no_clash by exact K. cbn [trace].
      eexists _, [("params", PDict [("scientificname", v)]);
                  ("headers", PDict obis_headers)].
      split; reflexivity.
  - intros f kwargs w Ht Hk.
    destruct f as [url args ctype|url path ctype|name|id|name|name];
      try discriminate Ht; cbn [call_fetcher bound_names] in *.
    + rewrite call_obis_GET_clash by exact Hk. split; reflexivity.
    + unfold call_kw.
      destruct (clashes ["url"; "path"; "ctype"] kwargs) eqn:E;
        [split; reflexivity|].
      change ["url"; "path"; "ctype"; "stream"]
        with (["url"; "path"; "ctype"] ++ ["stream"])%list in Hk.
      rewrite clashes_app, E in Hk. cbn [orb] in Hk.
      assert (K : clashes ["url"; "stream"] kwargs = true).
      { apply (clashes_true_incl ["stream"]); [|exact Hk].
        intros n Hn. cbn in Hn |- *. intuition. }
      unfold bind at 1, obis_write_disk, requests_get, call_kw.
      change (clashes ("url" :: dict_keys [("stream", PBool true)]) kwargs)
        with (clashes ["url"; "stream"] kwargs).
      rewrite K. split; reflexivity.
    + rewrite clashes_app in Hk. unfold call_kw at 1 2.
      destruct (clashes ["self"; "scientificname"] kwargs);
        [split; reflexivity|].
      cbn [orb] in Hk.
      destruct (handle_arrstr name) as [v|e] eqn:E.
      * destruct (handle_arrstr_result _ _ E) as [->|[s ->]].
        -- rewrite search_no_str; [split; reflexivity|].
           intros s. rewrite E. discriminate.
        -- rewrite (search_run _ _ _ _ _ E), call_obis_GET_clash by exact Hk.
           split; reflexivity.
      * rewrite search_no_str; [split; reflexivity|].
        intros s. rewrite E. discriminate.
    + rewrite clashes_app in Hk. unfold call_kw at 1 2.
      destruct (clashes ["self"; "id"] kwargs); [split; reflexivity|].
      cbn [orb] in Hk.
      rewrite taxon_run, call_obis_GET_clash by exact Hk.
      split; reflexivity.
    + rewrite clashes_app in Hk. unfold call_kw at 1 2.
      destruct (clashes ["self"; "scientificname"] kwargs);
        [split; reflexivity|].
      cbn [orb] in Hk.
      destruct (handle_arrstr name) as [v|e] eqn:E.
      * rewrite (annotations_run _ _ _ _ _ E), call_obis_GET_clash by exact Hk.
        split; reflexivity.
      * rewrite (annotations_no_name _ _ _ _ _ E). split; reflexivity.
  - intros f kwargs w Ht Hr.
    destruct f as [url args ctype|url path ctype|name|id|name|name];
      try discriminate Ht; cbn [reaches_transport] in Hr;
      try (now contradiction Hr); cbn [call_fetcher]; unfold call_kw at 1 2.
    + destruct (clashes ["self"; "scientificname"] kwargs);
        [split; reflexivity|].
      rewrite search_no_str; [split; reflexivity|].
      intros s Hs. apply Hr. now exists s.
    + destruct (clashes ["self"; "scientificname"] kwargs);
        [split; reflexivity|].
      destruct (handle_arrstr name) as [v|e] eqn:E.
      * exfalso. apply Hr. now exists v.
      * rewrite (annotations_no_name _ _ _ _ _ E). split; reflexivity.
  - reflexivity.
  - intros name w. cbn [call_fetcher].
    unfold lookup_taxon, requests_get, call_kw, bind.
    cbn [clashes dict_keys map existsb app].
    destruct (network (trace w) _) as [out|e]; [|reflexivity].
    unfold response_json, bind, tick, lift. cbn [self_url self_args trace].
    destruct (json out); reflexivity.
Qed.

End Model.

(** * Examples

    The theorems above at concrete inputs, with the Latin-1 table. *)

#[local] Existing Instance latin1_unicode.

Lemma build_api_url_query_witness :
  exists q : string,
    build_api_url "https://api.obis.org/v3/taxon/annotations"
      [("scientificname", PStr "Abra alba"); ("taxonid", PNone);
       ("size", PInt 10)]
    = "https://api.obis.org/v3/taxon/annotations" ++ "?" ++ q /\
    q = "scientificname=Abra+alba&size=10".
Proof.
  destruct (build_api_url_query "https://api.obis.org/v3/taxon/annotations"
              [("scientificname", PStr "Abra alba"); ("taxonid", PNone);
               ("size", PInt 10)]) as [q [H1 [H2 _]]].
  - unfold dict_wf. cbn.
    repeat constructor; cbn; intuition discriminate.
  - exists q. split; [exact H1 | exact H2].
Defined.

Lemma obis_GET_order_witness :
  fst (obis_GET (fun _ _ => Ok not_found_response)
         "https://api.obis.org/v3/taxon/0" [] json_ctype [] init)
    = Raise (HTTPError 404) /\
  fst (obis_GET (fun _ _ => Ok no_header_response)
         "https://api.obis.org/v3/taxon/0" [] json_ctype [] init)
    = Raise (KeyError "content-type") /\
  fst (obis_GET (fun _ _ => Ok html_response)
         "https://api.obis.org/v3/taxon/0" [] json_ctype [] init)
    = Raise (NoResultException
               "content-type did not equal application/json; charset=utf-8") /\
  fst (obis_GET sample_network
         "https://api.obis.org/v3/taxon/0" [] json_ctype [] init)
    = Ok mola_matches.
Proof.
  split; [|split; [|split]].
  - apply (obis_GET_order (fun _ _ => Ok not_found_response)
             "https://api.obis.org/v3/taxon/0" [] json_ctype [] init
             not_found_response eq_refl eq_refl). reflexivity.
  - apply (obis_GET_order (fun _ _ => Ok no_header_response)
             "https://api.obis.org/v3/taxon/0" [] json_ctype [] init
             no_header_response eq_refl eq_refl); [reflexivity|].
    intros k v [[= <- <-]|[]]. discriminate.
  - apply (obis_GET_order (fun _ _ => Ok html_response)
             "https://api.obis.org/v3/taxon/0" [] json_ctype [] init
             html_response eq_refl eq_refl) with (x := "text/html");
      try reflexivity; discriminate.
  - apply (obis_GET_order sample_network
             "https://api.obis.org/v3/taxon/0" [] json_ctype [] init
             (json_response mola_matches) eq_refl eq_refl); reflexivity.
Defined.

(** The claim of C1 as it is written fails for a response that has no
    content-type header: with status 204 and no such header the status
    is no failure and there is no header to differ, yet the body is not
    parsed and nothing is returned; the lookup raises KeyError, which is
    neither the HTTP error nor NoResultException. *)
Lemma obis_GET_no_header_key_error :
  http_failure (status_code no_header_response) = false /\
  (forall x, headers_getitem (headers no_header_response) "content-type"
             <> Ok x) /\
  fst (obis_GET (fun _ _ => Ok no_header_response)
         "https://api.obis.org/v3/taxon/0" [] json_ctype [] init)
    = Raise (KeyError "content-type") /\
  fst (obis_GET (fun _ _ => Ok no_header_response)
         "https://api.obis.org/v3/taxon/0" [] json_ctype [] init)
    <> json no_header_response /\
  ~ In EvJson
      (trace (snd (obis_GET (fun _ _ => Ok no_header_response)
         "https://api.obis.org/v3/taxon/0" [] json_ctype [] init))).
Proof.
  split; [reflexivity|]. split; [intros x; discriminate|].
  split; [reflexivity|]. split; [discriminate|].
  cbn. intros [H|[H|[]]]; discriminate H.
Qed.

Lemma search_mola_mola_witness :
  fst (search sample_network (PStr "Mola mola") [] init) = Ok mola_matches /\
  fst (get_search_url (snd (search sample_network (PStr "Mola mola") [] init)))
    = Ok "https://api.obis.org/v3/taxon/Mola mola?scientificname=Mola+mola".
Proof.
  destruct (search_mola_mola sample_network init (json_response mola_matches)
              mola_matches eq_refl eq_refl eq_refl eq_refl) as [H1 [H2 _]].
  split; [exact H1 | exact H2].
Defined.

Lemma handle_arrstr_cases_witness :
  handle_arrstr (PList [PStr "Mola mola"; PStr "Abra alba"])
    = Ok (PStr (String.concat "," ["Mola mola"; "Abra alba"])) /\
  handle_arrstr (PList [PStr "Mola mola"; PInt 5]) = Raise TypeError /\
  handle_arrstr (PInt 5) = Raise TypeError /\
  handle_arrstr PNone = Ok PNone /\
  handle_arrstr (PStr "Mola mola") = Ok (PStr "Mola mola").
Proof.
  split; [|split; [|split; [|split]]].
  - apply (handle_arrstr_cases (PList [PStr "Mola mola"; PStr "Abra alba"]))
      with (items := [PStr "Mola mola"; PStr "Abra alba"]);
      try reflexivity; discriminate.
  - apply (handle_arrstr_cases (PList [PStr "Mola mola"; PInt 5]))
      with (items := [PStr "Mola mola"; PInt 5]) (v := PInt 5);
      try reflexivity; try discriminate.
    right. left. reflexivity.
  - apply (handle_arrstr_cases (PInt 5)); try reflexivity; discriminate.
  - apply (handle_arrstr_cases PNone). reflexivity.
  - apply (handle_arrstr_cases (PStr "Mola mola")) with (s := "Mola mola").
    reflexivity.
Defined.

(** The claim of C4 as it is written fails for a list whose items are
    not str, and for a value that is not iterable: [handle_arrstr([1, 2])]
    and [handle_arrstr(5)] return nothing at all, they raise TypeError
    at the join. *)
Lemma handle_arrstr_ints_raise :
  handle_arrstr (PList [PInt 1; PInt 2]) = Raise TypeError /\
  ~ (exists v, handle_arrstr (PList [PInt 1; PInt 2]) = Ok v) /\
  handle_arrstr (PInt 5) = Raise TypeError /\
  ~ (exists v, handle_arrstr (PInt 5) = Ok v).
Proof.
  split; [reflexivity|]. split; [intros [v H]; discriminate H|].
  split; [reflexivity|]. intros [v H]. discriminate H.
Qed.

Lemma handle_arrint_cases_witness :
  handle_arrint (PList [PInt 1; PInt 2; PInt 3])
    = Ok (PStr (String.concat "," (map py_str [PInt 1; PInt 2; PInt 3]))) /\
  handle_arrint (PBool true) = Raise TypeError /\
  handle_arrint PNone = Ok PNone /\
  handle_arrint (PInt 5) = Ok (PInt 5).
Proof.
  split; [|split; [|split]].
  - apply (handle_arrint_cases (PList [PInt 1; PInt 2; PInt 3]));
      try reflexivity; discriminate.
  - apply (handle_arrint_cases (PBool true)); try reflexivity; discriminate.
  - apply (handle_arrint_cases PNone). reflexivity.
  - apply (handle_arrint_cases (PInt 5)) with (z := 5%Z). reflexivity.
Defined.

(** The claim of C5 as it is written fails for a value that is neither
    None, nor of class int, nor iterable: [handle_arrint(True)] returns
    nothing at all, it raises TypeError at [map(str, x)]. *)
Lemma handle_arrint_bool_raises :
  handle_arrint (PBool true) = Raise TypeError /\
  ~ (exists v, handle_arrint (PBool true) = Ok v).
Proof.
  split; [reflexivity|]. intros [v H]. discriminate H.
Qed.

Lemma get_mapper_url_key_error_witness :
  get_mapper_url sample_network
    (mkWorld (Some "https://api.obis.org/v3/taxon/Mola mola")
             (Some [("scientificname", PStr "Mola mola")]) [])
  = (Raise (KeyError "taxonid"),
     mkWorld (Some "https://api.obis.org/v3/taxon/Mola mola")
             (Some [("scientificname", PStr "Mola mola")]) []) /\
  fst (get_mapper_url sample_network
         (snd (search sample_network (PStr "Mola mola") [] init)))
  = Raise (KeyError "taxonid").
Proof.
  split.
  - apply (get_mapper_url_key_error sample_network)
      with (args := [("scientificname", PStr "Mola mola")]); reflexivity.
  - apply (get_mapper_url_key_error sample_network) with (s := "Mola mola").
    reflexivity.
Defined.

Lemma get_mapper_url_writes_taxonid_witness :
  self_args (snd (get_mapper_url sample_network stale_world))
    = Some [("scientificname", PStr "Mola mola"); ("taxonid", PInt 127405)] /\
  fst (get_mapper_url sample_network stale_world)
    = Ok "https://mapper.obis.org/?scientificname=Mola+mola&taxonid=127405".
Proof.
  destruct (get_mapper_url_writes_taxonid sample_network stale_world
              "https://api.obis.org/v3/taxon/Mola mola"
              [("scientificname", PStr "Mola mola"); ("taxonid", PNone)]
              PNone (PStr "Mola mola") (json_response mola_matches)
              mola_matches
              (PDict [("id", PInt 127405); ("scientificName", PStr "Mola mola")])
              (PInt 127405))
    as [H1 [H2 _]]; try reflexivity.
  - unfold dict_wf. cbn. repeat constructor; cbn; intuition discriminate.
  - discriminate.
  - split; [exact H1 | exact H2].
Defined.

(** The claim of C10 as it is written fails for a scientificname that is
    present but empty: the taxonid is falsy and the name is not None,
    yet [get_mapper_url] looks nothing up and leaves the stored args as
    they were, and [get_search_url] shows no taxonid parameter. *)
Lemma get_mapper_url_empty_name :
  (exists args t name,
      self_args empty_name_world = Some args /\
      dict_get args "taxonid" = Some t /\ truthy t = false /\
      dict_get args "scientificname" = Some name /\ name <> PNone) /\
  snd (get_mapper_url sample_network empty_name_world) = empty_name_world /\
  fst (get_mapper_url sample_network empty_name_world)
    = Ok "https://mapper.obis.org/?scientificname=" /\
  fst (get_search_url (snd (get_mapper_url sample_network empty_name_world)))
    = Ok "https://api.obis.org/v3/taxon/annotations?scientificname=" /\
  ~ In "taxonid"
      (map fst (parse_qsl "scientificname=")).
Proof.
  split; [|split; [|split; [|split]]]; try reflexivity.
  - exists [("scientificname", PStr ""); ("taxonid", PNone)], PNone, (PStr "").
    repeat split; discriminate.
  - cbn. intros [H|[]]. discriminate H.
Qed.

Lemma obis_write_disk_http_error_witness :
  fst (obis_write_disk (fun _ _ => Ok not_found_response) good_disk
         "https://api.obis.org/v3/export" "/tmp/export.zip" PNone [] init)
    = Raise (HTTPError 404) /\
  opened (trace (snd (obis_write_disk (fun _ _ => Ok not_found_response)
         good_disk
         "https://api.obis.org/v3/export" "/tmp/export.zip" PNone [] init)))
    = [].
Proof.
  destruct (obis_write_disk_http_error (fun _ _ => Ok not_found_response)
              good_disk
              "https://api.obis.org/v3/export" "/tmp/export.zip" PNone [] init
              not_found_response eq_refl eq_refl eq_refl) as [H1 [H2 _]].
  split; [exact H1 | exact H2].
Defined.

Lemma obis_write_disk_writes_body_witness :
  (fst (obis_write_disk (fun _ _ => Ok chunked_response) good_disk
          "https://api.obis.org/v3/export" "/tmp/export.zip" PNone [] init)
     = Ok "/tmp/export.zip" /\
   written "/tmp/export.zip"
     (trace (snd (obis_write_disk (fun _ _ => Ok chunked_response) good_disk
          "https://api.obis.org/v3/export" "/tmp/export.zip" PNone [] init)))
     = ["PK"; "data"]) /\
  (fst (obis_write_disk (fun _ _ => Ok broken_response) good_disk
          "https://api.obis.org/v3/export" "/tmp/export.zip" PNone [] init)
     = Raise RequestException /\
   written "/tmp/export.zip"
     (trace (snd (obis_write_disk (fun _ _ => Ok broken_response) good_disk
          "https://api.obis.org/v3/export" "/tmp/export.zip" PNone [] init)))
     = ["PK"]) /\
  fst (obis_write_disk (fun _ _ => Ok chunked_response) no_open_disk
         "https://api.obis.org/v3/export" "/nonexistent-dir/x.zip" PNone []
         init)
    = Raise OSError.
Proof.
  split; [|split].
  - destruct (obis_write_disk_writes_body (fun _ _ => Ok chunked_response)
                good_disk "https://api.obis.org/v3/export" "/tmp/export.zip"
                PNone [] init chunked_response eq_refl eq_refl eq_refl)
      as [_ H].
    destruct (H (fun _ _ => eq_refl)) as [H1 [_ H3]].
    split; [exact H1 | exact H3].
  - destruct (obis_write_disk_writes_body (fun _ _ => Ok broken_response)
                good_disk "https://api.obis.org/v3/export" "/tmp/export.zip"
                PNone [] init broken_response eq_refl eq_refl eq_refl)
      as [_ H].
    destruct (H (fun _ _ => eq_refl)) as [H1 [_ H3]].
    split; [exact H1 | exact H3].
  - destruct (obis_write_disk_writes_body (fun _ _ => Ok chunked_response)
                no_open_disk "https://api.obis.org/v3/export"
                "/nonexistent-dir/x.zip" PNone [] init chunked_response
                eq_refl eq_refl eq_refl) as [H _].
    now rewrite (H OSError eq_refl).
Defined.

Lemma obis_GET_missing_header_witness :
  fst (obis_GET (fun _ _ => Ok no_header_response)
         "https://api.obis.org/v3/taxon/0" [] json_ctype [] init)
  = Raise (KeyError "content-type").
Proof.
  rewrite (obis_GET_missing_header (fun _ _ => Ok no_header_response)
             "https://api.obis.org/v3/taxon/0" [] json_ctype [] init
             no_header_response eq_refl eq_refl eq_refl).
  - reflexivity.
  - intros k v [[= <- <-]|[]]. discriminate.
Defined.

Lemma obis_GET_ok_inv_witness :
  exists out,
    sample_network [] (obis_GET_request "https://api.obis.org/v3/taxon/0" [] [])
      = Ok out /\
    json out = Ok mola_matches.
Proof.
  destruct (obis_GET_ok_inv sample_network "https://api.obis.org/v3/taxon/0"
              [] json_ctype [] init mola_matches eq_refl)
    as [_ [out [H1 [_ [_ H4]]]]].
  exists out. split; [exact H1 | exact H4].
Defined.

Lemma obis_GET_one_request_witness :
  requests_of (trace (snd (obis_GET (fun _ _ => Raise RequestException)
     "https://api.obis.org/v3/taxon/0" [] json_ctype [("timeout", PInt 5)] init)))
  = [mkRequest "https://api.obis.org/v3/taxon/0"
       [("params", PDict []);
        ("headers", PDict [("User-Agent", PStr user_agent);
                           ("Connection", PStr "close")]);
        ("timeout", PInt 5)]].
Proof.
  apply (obis_GET_one_request (fun _ _ => Raise RequestException)
           "https://api.obis.org/v3/taxon/0" [] json_ctype
           [("timeout", PInt 5)] init eq_refl).
Defined.

Lemma obis_GET_keyword_clash_witness :
  obis_GET sample_network "https://api.obis.org/v3/taxon/0" [] json_ctype
    [("headers", PDict [("Accept", PStr "text/csv")])] init
  = (Raise TypeError, init).
Proof.
  apply (obis_GET_keyword_clash sample_network "https://api.obis.org/v3/taxon/0"
           [] json_ctype [("headers", PDict [("Accept", PStr "text/csv")])] init
           "headers").
  - right. right. left. reflexivity.
  - left. reflexivity.
Defined.

Lemma handle_arrstr_idempotent_witness :
  handle_arrstr (PStr "Mola mola,Abra alba") = Ok (PStr "Mola mola,Abra alba").
Proof.
  apply (handle_arrstr_idempotent (PList [PStr "Mola mola"; PStr "Abra alba"])).
  reflexivity.
Defined.

Lemma handle_arrint_splits_str_witness :
  handle_arrint (PStr "127405") = Ok (PStr "1,2,7,4,0,5").
Proof.
  apply (handle_arrint_splits_str "127405"). reflexivity.
Defined.

Lemma search_not_str_witness :
  search sample_network (PList [PInt 127405]) [] init = (Raise TypeError, init).
Proof.
  apply (search_not_str sample_network (PList [PInt 127405]) [] init).
  intros s. discriminate.
Defined.

Lemma search_stores_before_fetch_witness :
  fst (get_search_url
         (snd (search (fun _ _ => Ok not_found_response)
                 (PStr "Abra alba") [] init)))
  = Ok "https://api.obis.org/v3/taxon/Abra alba?scientificname=Abra+alba".
Proof.
  apply (search_stores_before_fetch (fun _ _ => Ok not_found_response)
           (PStr "Abra alba") "Abra alba" [] init eq_refl).
Defined.

Lemma annotations_bad_name_witness :
  fst (get_search_url
         (snd (annotations sample_network (PInt 127405) []
                 (snd (search sample_network (PStr "Mola mola") [] init)))))
  = Ok "https://api.obis.org/v3/taxon/annotations?scientificname=Mola+mola".
Proof.
  rewrite (annotations_bad_name sample_network (PInt 127405) TypeError [] _
             eq_refl).
  reflexivity.
Defined.

Lemma annotations_query_witness :
  fst (get_search_url (snd (annotations sample_network PNone [] init)))
    = Ok "https://api.obis.org/v3/taxon/annotations?" /\
  fst (get_search_url
         (snd (annotations sample_network (PStr "Abra alba") [] init)))
    = Ok "https://api.obis.org/v3/taxon/annotations?scientificname=Abra+alba".
Proof.
  split.
  - apply (annotations_query sample_network PNone PNone [] init eq_refl).
  - apply (annotations_query sample_network (PStr "Abra alba")
             (PStr "Abra alba") [] init eq_refl).
Defined.

Lemma facade_request_is_stored_state_witness :
  exists url args,
    self_url (snd (taxon sample_network (PInt 402913) [("timeout", PInt 5)] init))
      = Some url /\
    self_args (snd (taxon sample_network (PInt 402913) [("timeout", PInt 5)] init))
      = Some args /\
    requests_of
      (trace (snd (taxon sample_network (PInt 402913) [("timeout", PInt 5)] init)))
      = ([] ++ [obis_GET_request url args [("timeout", PInt 5)]])%list.
Proof.
  apply (facade_request_is_stored_state sample_network [("timeout", PInt 5)]
           init eq_refl).
Defined.

Lemma search_keyword_clash_witness :
  search sample_network (PStr "Mola mola") [("url", PStr "http://localhost/")]
    init
  = (Raise TypeError,
     mkWorld (Some "https://api.obis.org/v3/taxon/Mola mola")
             (Some [("scientificname", PStr "Mola mola")]) []).
Proof.
  apply (search_keyword_clash sample_network (PStr "Mola mola") "Mola mola"
           [("url", PStr "http://localhost/")] init "url" eq_refl).
  - left. reflexivity.
  - left. reflexivity.
Defined.

Lemma lookup_taxon_unvalidated_witness :
  fst (lookup_taxon (fun _ _ => Ok not_found_json) (PStr "Mola mola") init)
  = Ok (PDict [("error", PStr "Not Found")]).
Proof.
  rewrite (lookup_taxon_unvalidated (fun _ _ => Ok not_found_json)
             (PStr "Mola mola") init not_found_json eq_refl).
  reflexivity.
Defined.

Lemma get_mapper_url_known_taxonid_witness :
  get_mapper_url sample_network
    (mkWorld None
       (Some [("scientificname", PNone); ("taxonid", PInt 127405)]) [])
  = (Ok "https://mapper.obis.org/?taxonid=127405",
     mkWorld None
       (Some [("scientificname", PNone); ("taxonid", PInt 127405)]) []).
Proof.
  apply (get_mapper_url_known_taxonid sample_network
           (mkWorld None
              (Some [("scientificname", PNone); ("taxonid", PInt 127405)]) [])
           [("scientificname", PNone); ("taxonid", PInt 127405)]
           (PInt 127405)); try reflexivity.
  unfold dict_wf. cbn. repeat constructor; cbn; intuition discriminate.
Defined.

Lemma get_mapper_url_missing_name_witness :
  get_mapper_url sample_network (mkWorld None (Some [("taxonid", PNone)]) [])
  = (Raise (KeyError "scientificname"),
     mkWorld None (Some [("taxonid", PNone)]) []).
Proof.
  apply (get_mapper_url_missing_name sample_network
           (mkWorld None (Some [("taxonid", PNone)]) [])
           [("taxonid", PNone)] PNone); reflexivity.
Defined.

Lemma get_mapper_url_no_match_witness :
  fst (get_mapper_url (fun _ _ => Ok no_match_response) stale_world)
    = Raise IndexError /\
  self_args (snd (get_mapper_url (fun _ _ => Ok no_match_response) stale_world))
    = self_args stale_world.
Proof.
  rewrite (get_mapper_url_no_match (fun _ _ => Ok no_match_response)
             stale_world
             [("scientificname", PStr "Mola mola"); ("taxonid", PNone)]
             PNone (PStr "Mola mola") no_match_response
             eq_refl eq_refl eq_refl eq_refl eq_refl eq_refl eq_refl).
  split; reflexivity.
Defined.

Lemma build_api_url_all_none_witness :
  build_api_url "https://api.obis.org/v3/taxon/annotations"
    [("scientificname", PNone); ("taxonid", PNone)]
  = "https://api.obis.org/v3/taxon/annotations" ++ "?".
Proof.
  apply (build_api_url_all_none "https://api.obis.org/v3/taxon/annotations"
           [("scientificname", PNone); ("taxonid", PNone)]).
  intros k v [[= <- <-]|[[= <- <-]|[]]]; reflexivity.
Defined.

Lemma build_api_url_injective_witness :
  map decoded_item
    (present_items [("taxonid", PInt 127405); ("scientificname", PNone)])
  = map decoded_item
      (present_items [("scientificname", PNone); ("taxonid", PStr "127405")]).
Proof.
  apply (build_api_url_injective "https://mapper.obis.org/"
           [("taxonid", PInt 127405); ("scientificname", PNone)]
           [("scientificname", PNone); ("taxonid", PStr "127405")]).
  - unfold dict_wf. cbn. repeat constructor; cbn; intuition discriminate.
  - unfold dict_wf. cbn. repeat constructor; cbn; intuition discriminate.
  - reflexivity.
Defined.

Lemma fetchers_forward_options_witness :
  forwards_verbatim sample_network good_disk (Fsearch (PStr "Mola mola"))
    [("timeout", PInt 5); ("verify", PBool false); ("stream", PBool true)]
    init /\
  fst (call_fetcher sample_network good_disk (Ftaxon (PInt 402913))
         [("headers", PDict [("Accept", PStr "text/csv")])] init)
    = Raise TypeError /\
  fst (call_fetcher sample_network good_disk (Fsearch PNone)
         [("timeout", PInt 5)] init)
    = Raise TypeError.
Proof.
  destruct (fetchers_forward_options sample_network good_disk)
    as [H1 [H2 [H3 _]]].
  split; [|split].
  - apply H1.
    + reflexivity.
    + exists "Mola mola". reflexivity.
    + reflexivity.
  - apply (H2 (Ftaxon (PInt 402913))
              [("headers", PDict [("Accept", PStr "text/csv")])] init);
      reflexivity.
  - apply (H3 (Fsearch PNone) [("timeout", PInt 5)] init); [reflexivity|].
    intros [s H]. discriminate H.
Defined.

(** The claim of C9 as it is written fails twice.  [lookup_taxon] is a
    fetch function that takes no option: called with a timeout it raises
    TypeError and no request is issued.  And a function that does take
    options cannot forward one named [headers]: [obis_GET] gives
    [requests.get] that keyword itself, so the call raises TypeError and
    no request is issued. *)
Lemma options_not_always_forwarded :
  (fst (call_fetcher sample_network good_disk
          (Flookup_taxon (PStr "Mola mola")) [("timeout", PInt 5)] init)
     = Raise TypeError /\
   ~ forwards_verbatim sample_network good_disk
       (Flookup_taxon (PStr "Mola mola")) [("timeout", PInt 5)] init) /\
  (fst (call_fetcher sample_network good_disk
          (Fobis_GET "https://api.obis.org/v3/taxon/0" [] json_ctype)
          [("headers", PDict [("Accept", PStr "text/csv")])] init)
     = Raise TypeError /\
   ~ forwards_verbatim sample_network good_disk
       (Fobis_GET "https://api.obis.org/v3/taxon/0" [] json_ctype)
       [("headers", PDict [("Accept", PStr "text/csv")])] init).
Proof.
  split; (split; [reflexivity|]);
    intros [r [explicit [H _]]]; cbn in H; discriminate H.
Qed.
